(** * PostGeneration (Pollyn front end): view-state logic of the components

    A shallow embedding of the TypeScript components
    [HistoryComponent], [DiscoverComponent], [DashboardComponent],
    [LoginComponent], [SignupComponent] and [CreateComponent], together with
    the properties of their operations.

    Conventions of the embedding.
    - A JavaScript string is a [string]: a sequence of code units, restricted
      to the Latin-1 range (one [ascii] per code unit).  On that range
      [String.prototype.toLowerCase] acts code unit by code unit and
      [String.prototype.trim] strips the seven white-space code units.
    - An object is a reference ([ref]) into a heap; arrays hold references,
      [===] and [indexOf] compare references.
    - A method is a computation in the monad [Js]: it threads the component
      state and either returns or throws; the state reached when an exception
      is thrown is kept, as in JavaScript.
    - Numbers used as counters and indices are integers ([Z]); the counters of
      the program stay far below 2^53, where doubles are exact.
    - Text that is only displayed and never searched (the preview cards) may
      hold characters outside Latin-1; it is written as its UTF-8 bytes. *)

From Stdlib Require Import ZArith Ascii String List Bool Lia DecimalString.
From stdpp Require Import base option list gmap strings.

Local Open Scope string_scope.

(** ** JavaScript completions and the method monad *)

Inductive JSError : Set := TypeError | SyntaxError.

Inductive outcome (A : Type) : Type :=
| Returned (a : A)
| Thrown (e : JSError).
Arguments Returned {A} a.
Arguments Thrown {A} e.

Definition Js (S A : Type) : Type := S -> outcome A * S.

Definition ret {S A} (a : A) : Js S A := fun s => (Returned a, s).
Definition throw {S A} (e : JSError) : Js S A := fun s => (Thrown e, s).
Definition bind {S A B} (m : Js S A) (k : A -> Js S B) : Js S B :=
  fun s => match m s with
           | (Returned a, s') => k a s'
           | (Thrown e, s') => (Thrown e, s')
           end.
Definition get {S} : Js S S := fun s => (Returned s, s).
Definition modify {S} (f : S -> S) : Js S unit := fun s => (Returned tt, f s).

Declare Scope js_scope.
Delimit Scope js_scope with js.
Notation "'let!' x ':=' m 'in' k" := (bind m (fun x => k))
  (at level 10, x name, m at level 100, k at level 200) : js_scope.
Notation "m ;;; k" := (bind m (fun _ => k))
  (at level 100, k at level 200, right associativity) : js_scope.

(** State and completion of running a method. *)
Definition exec {S A} (m : Js S A) (s : S) : S := snd (m s).
Definition completion {S A} (m : Js S A) (s : S) : outcome A := fst (m s).

(** ** Strings *)

Module JsString.

(** [toLowerCase] on one Latin-1 code unit: A-Z, and U+00C0-U+00DE
    except the multiplication sign U+00D7, move up by 32. *)
Definition lower_unit (c : ascii) : ascii :=
  let n := nat_of_ascii c in
  if (((65 <=? n) && (n <=? 90))
      || ((192 <=? n) && (n <=? 222) && negb (n =? 215)))%nat
  then ascii_of_nat (n + 32) else c.

Fixpoint toLowerCase (s : string) : string :=
  match s with
  | EmptyString => EmptyString
  | String c s' => String (lower_unit c) (toLowerCase s')
  end.

(** White space and line terminators below U+0100: TAB, LF, VT, FF, CR,
    SP and NBSP. *)
Definition is_space (c : ascii) : bool :=
  let n := nat_of_ascii c in
  (((9 <=? n) && (n <=? 13)) || (n =? 32) || (n =? 160))%nat.

Fixpoint trimStart (s : string) : string :=
  match s with
  | EmptyString => EmptyString
  | String c s' => if is_space c then trimStart s' else s
  end.

Fixpoint trimEnd (s : string) : string :=
  match s with
  | EmptyString => EmptyString
  | String c s' =>
      match trimEnd s' with
      | EmptyString => if is_space c then EmptyString else String c EmptyString
      | t => String c t
      end
  end.

Definition trim (s : string) : string := trimEnd (trimStart s).

(** [Array.prototype.join]. *)
Fixpoint join (sep : string) (l : list string) : string :=
  match l with
  | [] => EmptyString
  | [x] => x
  | x :: rest => x ++ sep ++ join sep rest
  end.

Fixpoint startsWith (s q : string) : bool :=
  match q, s with
  | EmptyString, _ => true
  | String _ _, EmptyString => false
  | String a q', String b s' => if Ascii.eqb a b then startsWith s' q' else false
  end.

(** [String.prototype.includes]: [q] occurs in [s] at some position. *)
Fixpoint includes (s q : string) : bool :=
  startsWith s q ||
  match s with
  | EmptyString => false
  | String _ s' => includes s' q
  end.

(** Truthiness of a string: only the empty string is falsy. *)
Definition truthy (s : string) : bool :=
  match s with EmptyString => false | _ => true end.

(** [q] is a substring of [s]. *)
Definition Substring (q s : string) : Prop :=
  exists pre suf, s = pre ++ q ++ suf.

End JsString.
Import JsString.

(** ** Arrays and references *)

Definition ref := nat.

(** [a[i]] for a number [i]: [undefined] ([None]) outside the bounds. *)
Definition js_index {A} (l : list A) (i : Z) : option A :=
  if (i <? 0)%Z then None else l !! Z.to_nat i.

(** [Array.prototype.indexOf] on an array of references: the first position
    holding [x], or -1. *)
Fixpoint indexOf (l : list ref) (x : ref) : Z :=
  match l with
  | [] => (-1)%Z
  | y :: l' =>
      if Nat.eqb y x then 0%Z
      else let k := indexOf l' x in
           if (k <? 0)%Z then (-1)%Z else (k + 1)%Z
  end.

(** [a.splice(start, 1)]: a negative [start] counts from the end and is
    clamped at 0, a [start] beyond the end is clamped to the length; one
    element is removed when there is one at that position. *)
Definition splice1 {A} (l : list A) (start : Z) : list A :=
  let len := Z.of_nat (length l) in
  let actualStart :=
    if (start <? 0)%Z then Z.max (len + start) 0 else Z.min start len in
  delete (Z.to_nat actualStart) l.

(** Writing an object in the heap. *)
Definition store {A} (h : ref -> A) (r : ref) (v : A) : ref -> A :=
  fun r' => if Nat.eqb r' r then v else h r'.

Definition try_catch {S A} (m : Js S A) (handler : Js S A) : Js S A :=
  fun s => match m s with
           | (Returned a, s') => (Returned a, s')
           | (Thrown _, s') => handler s'
           end.

(** Decimal text of a non-negative integer, as template literals print it. *)
Definition decimal (n : nat) : string := NilZero.string_of_uint (Nat.to_uint n).

(** ** history.component.ts *)

Module History.

Record PostHistory : Type := {
  title : string;
  description : string;
  caption : option string;
  date : string;
  tags : option (list string)
}.

(** What [alert] and [confirm] display, by the values interpolated in the
    text. *)
Inductive dialog : Type :=
| ViewDialog (post_title post_description post_caption : string)
| DeleteDialog (post_title : string).

(** The fields of the component ([history], [filteredHistory],
    [searchQuery]) and the part of the browser it acts on: the heap of post
    objects with its allocation pointer, local storage, and the dialogs
    shown so far. *)
Record HistoryComponent : Type := {
  history : list ref;
  filteredHistory : list ref;
  searchQuery : string;
  heap : ref -> PostHistory;
  brk : ref;
  localStorage : gmap string string;
  shown : list dialog
}.

Definition set_history (v : list ref) (s : HistoryComponent) :=
  {| history := v; filteredHistory := filteredHistory s;
     searchQuery := searchQuery s; heap := heap s; brk := brk s;
     localStorage := localStorage s; shown := shown s |}.

Definition set_filteredHistory (v : list ref) (s : HistoryComponent) :=
  {| history := history s; filteredHistory := v;
     searchQuery := searchQuery s; heap := heap s; brk := brk s;
     localStorage := localStorage s; shown := shown s |}.

Definition set_searchQuery (v : string) (s : HistoryComponent) :=
  {| history := history s; filteredHistory := filteredHistory s;
     searchQuery := v; heap := heap s; brk := brk s;
     localStorage := localStorage s; shown := shown s |}.

Definition setItem (k v : string) (s : HistoryComponent) :=
  {| history := history s; filteredHistory := filteredHistory s;
     searchQuery := searchQuery s; heap := heap s; brk := brk s;
     localStorage := <[k := v]> (localStorage s); shown := shown s |}.

Definition show (d : dialog) (s : HistoryComponent) :=
  {| history := history s; filteredHistory := filteredHistory s;
     searchQuery := searchQuery s; heap := heap s; brk := brk s;
     localStorage := localStorage s; shown := shown s ++ [d] |}.

(** Creating the objects [vs]: they get the next free references, in
    order. *)
Definition allocate (vs : list PostHistory) : Js HistoryComponent (list ref) :=
  fun s =>
    (Returned (seq (brk s) (length vs)),
     {| history := history s; filteredHistory := filteredHistory s;
        searchQuery := searchQuery s;
        heap := fun r => if (brk s <=? r)%nat
                         then match vs !! (r - brk s)%nat with
                              | Some v => v
                              | None => heap s r
                              end
                         else heap s r;
        brk := (brk s + length vs)%nat;
        localStorage := localStorage s; shown := shown s |}).

(** [post.caption || ''] and [post.tags || []]. *)
Definition caption_or_empty (post : PostHistory) : string :=
  match caption post with
  | Some c => if truthy c then c else ""
  | None => ""
  end.

Definition tags_or_empty (post : PostHistory) : list string :=
  match tags post with
  | Some t => t
  | None => []
  end.

(** The text a post is searched in. *)
Definition haystack (post : PostHistory) : string :=
  toLowerCase
    (join " " ([title post; description post; caption_or_empty post]
               ++ tags_or_empty post)).

Definition applyFilter : Js HistoryComponent unit :=
  modify (fun s =>
    let q := trim (toLowerCase (searchQuery s)) in
    set_filteredHistory
      (if negb (truthy q)
       then history s
       else List.filter (fun post => includes (haystack (heap s post)) q)
                        (history s))
      s).

Definition viewPost (index : Z) : Js HistoryComponent unit :=
  (let! s := get in
   match js_index (filteredHistory s) index with
   | None => throw TypeError
   | Some post =>
       let p := heap s post in
       modify (show (ViewDialog (title p) (description p) (caption_or_empty p)))
   end)%js.

Definition placeholder (now : string) (i : nat) : PostHistory :=
  {| title := "Sample Post " ++ decimal (i + 1);
     description :=
       "This is a sample description for post #" ++ decimal (i + 1) ++ ".";
     caption := Some (if (i mod 2 =? 0)%nat then "Example caption text." else "");
     date := now;
     tags := Some ["Demo"; "History"; "Tag" ++ decimal (i mod 5)] |}.

(** What [JSON.parse] returns for a text it accepts: an array of post
    records, or a value that cannot be iterated (null, a number, a
    boolean, an object).  The elements of a stored array are taken to be
    post records, as the declared type [PostHistory[]] has them; a stored
    string or an array of other values is outside the model. *)
Inductive parsed : Type :=
| PostArray (posts : list PostHistory)
| NotIterable.

Section Browser.

(** [JSON.parse] ([None]: a SyntaxError is thrown), [JSON.stringify] on
    a list of posts, the reading of the clock by
    [new Date().toISOString()], and the user's answer to a [confirm]
    dialog. *)
Variable JSON_parse : string -> option parsed.
Variable JSON_stringify : list PostHistory -> string.
Variable now : string.
Variable confirm : dialog -> bool.

Definition parse (text : string) : Js HistoryComponent parsed :=
  match JSON_parse text with
  | Some v => ret v
  | None => throw SyntaxError
  end.

Definition getPlaceholderHistory : Js HistoryComponent (list ref) :=
  allocate (map (placeholder now) (seq 0 10)).

(** [this.history = v], for [v] an array of objects ([Some]) or a value
    that cannot be iterated ([None]).  The field of the model holds
    arrays only: in the second case it is left as it is, and the result
    [false] tells that the field holds no array. *)
Definition assign_history (v : option (list ref)) : Js HistoryComponent bool :=
  match v with
  | Some h => (modify (set_history h) ;;; ret true)%js
  | None => ret false
  end.

(** The result tells whether [this.history] holds an array afterwards. *)
Definition loadHistory : Js HistoryComponent bool :=
  try_catch
    (let! s := get in
     let stored := localStorage s !! "postHistory" in
     let! v := match stored with
               | Some text =>
                   if truthy text
                   then (let! v := parse text in
                         match v with
                         | PostArray vs =>
                             let! h := allocate vs in ret (Some h)
                         | NotIterable => ret None
                         end)
                   else (let! h := getPlaceholderHistory in ret (Some h))
               | None => (let! h := getPlaceholderHistory in ret (Some h))
               end in
     assign_history v)%js
    (let! h := getPlaceholderHistory in assign_history (Some h))%js.

(** The spread [[...this.history]] is outside the try of [loadHistory]:
    it throws a TypeError when the field holds a value that cannot be
    iterated. *)
Definition ngOnInit : Js HistoryComponent unit :=
  (let! is_array := loadHistory in
   if is_array : bool
   then modify (fun s => set_filteredHistory (history s) s)
   else throw TypeError)%js.

Definition deletePost (index : Z) : Js HistoryComponent unit :=
  (let! s := get in
   match js_index (filteredHistory s) index with
   | None => throw TypeError
   | Some post =>
       let question := DeleteDialog (title (heap s post)) in
       modify (show question) ;;;
       if confirm question
       then
         let originalIndex := indexOf (history s) post in
         modify (fun s => set_history (splice1 (history s) originalIndex) s) ;;;
         modify (fun s =>
           setItem "postHistory" (JSON_stringify (map (heap s) (history s))) s) ;;;
         applyFilter
       else ret tt
   end)%js.

(** The state after [loadHistory] took the placeholder branch. *)
Definition with_placeholders (s : HistoryComponent) : HistoryComponent :=
  set_history (seq (brk s) 10)
    (exec (allocate (map (placeholder now) (seq 0 10))) s).

(** The state after a confirmed deletion of the object [post]. *)
Definition deleted (post : ref) (s : HistoryComponent) : HistoryComponent :=
  let h := splice1 (history s) (indexOf (history s) post) in
  exec applyFilter
    (setItem "postHistory" (JSON_stringify (map (heap s) h))
             (set_history h (show (DeleteDialog (title (heap s post))) s))).

End Browser.

(** A freshly constructed component in a browser with storage [ls]. *)
Definition create (h : ref -> PostHistory) (b : ref) (ls : gmap string string)
  : HistoryComponent :=
  {| history := []; filteredHistory := []; searchQuery := "";
     heap := h; brk := b; localStorage := ls; shown := [] |}.

(** The filter as the specification words it: a post matches when one of
    its fields (title, description, caption, one of the tags) contains the
    term, compared without regard to case. *)
Definition field_contains (field term : string) : bool :=
  includes (toLowerCase field) (toLowerCase term).

Definition fields (post : PostHistory) : list string :=
  [title post; description post] ++
  match caption post with Some c => [c] | None => [] end ++
  tags_or_empty post.

Definition some_field_contains (term : string) (post : PostHistory) : bool :=
  existsb (fun f => field_contains f term) (fields post).

(** What happens to a mounted component: the search box writes
    [searchQuery], the template calls a method; each deletion comes with
    the user's way of answering the confirmation. *)
Inductive event : Type :=
| Search (term : string)
| ApplyFilter
| ViewPost (index : Z)
| DeletePost (index : Z) (confirm : dialog -> bool).

Definition perform (JSON_stringify : list PostHistory -> string) (e : event)
  : Js HistoryComponent unit :=
  match e with
  | Search term => modify (set_searchQuery term)
  | ApplyFilter => applyFilter
  | ViewPost index => viewPost index
  | DeletePost index confirm => deletePost JSON_stringify confirm index
  end.

Inductive reachable (JSON_parse : string -> option parsed)
    (JSON_stringify : list PostHistory -> string) (now : string)
  : HistoryComponent -> Prop :=
| reach_mounted h b ls :
    completion (ngOnInit JSON_parse now) (create h b ls) = Returned tt ->
    reachable JSON_parse JSON_stringify now
      (exec (ngOnInit JSON_parse now) (create h b ls))
| reach_event s e :
    reachable JSON_parse JSON_stringify now s ->
    reachable JSON_parse JSON_stringify now (exec (perform JSON_stringify e) s).

(** The posts of [history] are pairwise distinct objects and the filtered
    view is a sub-list of [history]. *)
Definition consistent (s : HistoryComponent) : Prop :=
  NoDup (history s) /\ sublist (filteredHistory s) (history s).

End History.

(** ** discover.component.ts *)

Module Discover.

Record DiscoverPost : Type := {
  title : string;
  description : string;
  author : string;
  likes : Z;
  tags : list string;
  image : option string
}.

(** [post.likes++] on the object [post]. *)
Definition incr_likes (post : DiscoverPost) : DiscoverPost :=
  {| title := title post; description := description post;
     author := author post; likes := likes post + 1;
     tags := tags post; image := image post |}.

(** What [alert] displays: the title and description interpolated. *)
Inductive dialog : Type :=
| ViewDialog (post_title post_description : string).

(** The field [discoverPosts], the heap of post objects with its
    allocation pointer, and the dialogs shown so far. *)
Record DiscoverComponent : Type := {
  discoverPosts : list ref;
  heap : ref -> DiscoverPost;
  brk : ref;
  shown : list dialog
}.

Definition sampleImages : list string :=
  [ "https://images.unsplash.com/photo-1507525428034-b723cf961d3e";
    "https://images.unsplash.com/photo-1522205408450-add114ad53fe";
    "https://images.unsplash.com/photo-1498050108023-c5249f4df085";
    "https://images.unsplash.com/photo-1506744038136-46273834b3fb" ].

Section Random.

(** [random k n] stands for [Math.floor(Math.random() * n)] at the
    [k]-th call of [Math.random]. *)
Variable random : nat -> Z -> Z.

Definition mock (i : nat) : DiscoverPost :=
  {| title := "Discover Post " ++ decimal (i + 1);
     description :=
       "A fascinating post exploring AI, design, and creativity. Dive in to explore something new.";
     author := "User " ++ decimal (Z.to_nat (random (2 * i) 50 + 1));
     likes := random (2 * i + 1) 1000;
     tags := ["AI"; "Design"; "Trending";
              if (i mod 2 =? 0)%nat then "Featured" else "New"];
     image := sampleImages !! (i mod length sampleImages)%nat |}.

Definition generateMockData : Js DiscoverComponent unit :=
  modify (fun s =>
    let vs := map mock (seq 0 10) in
    {| discoverPosts := seq (brk s) (length vs);
       heap := fun r => if (brk s <=? r)%nat
                        then match vs !! (r - brk s)%nat with
                             | Some v => v
                             | None => heap s r
                             end
                        else heap s r;
       brk := (brk s + length vs)%nat;
       shown := shown s |}).

Definition ngOnInit : Js DiscoverComponent unit := generateMockData.

End Random.

Definition likePost (index : Z) : Js DiscoverComponent unit :=
  (let! s := get in
   match js_index (discoverPosts s) index with
   | None => throw TypeError
   | Some post =>
       modify (fun s =>
         {| discoverPosts := discoverPosts s;
            heap := store (heap s) post (incr_likes (heap s post));
            brk := brk s; shown := shown s |})
   end)%js.

Definition viewPost (index : Z) : Js DiscoverComponent unit :=
  (let! s := get in
   match js_index (discoverPosts s) index with
   | None => throw TypeError
   | Some post =>
       let p := heap s post in
       modify (fun s =>
         {| discoverPosts := discoverPosts s; heap := heap s; brk := brk s;
            shown := shown s ++ [ViewDialog (title p) (description p)] |})
   end)%js.

Definition create (h : ref -> DiscoverPost) (b : ref) : DiscoverComponent :=
  {| discoverPosts := []; heap := h; brk := b; shown := [] |}.

End Discover.

(** ** create.component.ts *)

Module Create.

Record PreviewCard : Type := {
  title : string;
  description : string;
  caption : string
}.

Record CreateComponent : Type := {
  previewCards : list PreviewCard;
  currentCardIndex : Z;
  selectedPostCount : Z
}.

Definition set_currentCardIndex (v : Z) (c : CreateComponent) :=
  {| previewCards := previewCards c; currentCardIndex := v;
     selectedPostCount := selectedPostCount c |}.

(** [%] is the remainder of the truncated division ([Z.rem]). *)
Definition nextCard (c : CreateComponent) : CreateComponent :=
  set_currentCardIndex
    (Z.rem (currentCardIndex c + 1) (Z.of_nat (length (previewCards c)))) c.

Definition prevCard (c : CreateComponent) : CreateComponent :=
  set_currentCardIndex
    (Z.rem (currentCardIndex c - 1 + Z.of_nat (length (previewCards c)))
           (Z.of_nat (length (previewCards c)))) c.

(** The component as constructed. *)
Definition initial : CreateComponent :=
  {| previewCards :=
       [ {| title := "Angular 19 Just Dropped ⚡";
            description :=
              "Explore zoneless change detection and the new signal-based forms API.";
            caption := "Check out the new features!" |};
         {| title := "Mastering TypeScript 6 🚀";
            description :=
              "Type inference just got smarter — refactor for cleaner code.";
            caption := "TypeScript 6 is amazing!" |};
         {| title := "RxJS + Signals Hybrid 🔁";
            description :=
              "Combine signals and observables for ultra-reactive Angular apps.";
            caption := "Reactive programming made easier." |} ];
     currentCardIndex := 0;
     selectedPostCount := 1 |}.

End Create.

(** ** login.component.ts and signup.component.ts *)

Module Login.

(** The form fields, the lines written on the console and the number of
    [close] events emitted. *)
Record LoginComponent : Type := {
  email : string;
  password : string;
  console : list (list string);
  closed : nat
}.

Definition onLogin : Js LoginComponent unit :=
  modify (fun c =>
    {| email := email c; password := password c;
       console := console c ++ [["Login attempted:"; email c; password c]];
       closed := closed c |}).

Definition closeLogin : Js LoginComponent unit :=
  modify (fun c =>
    {| email := email c; password := password c; console := console c;
       closed := S (closed c) |}).

End Login.

Module Signup.

Record SignupComponent : Type := {
  name : string;
  email : string;
  password : string;
  console : list (list string);
  closed : nat
}.

Definition onSignup : Js SignupComponent unit :=
  modify (fun c =>
    {| name := name c; email := email c; password := password c;
       console := console c ++
         [["Signup attempted:"; name c; email c; password c]];
       closed := closed c |}).

Definition closeSignup : Js SignupComponent unit :=
  modify (fun c =>
    {| name := name c; email := email c; password := password c;
       console := console c; closed := S (closed c) |}).

End Signup.

(** ** dashboard.component.ts *)

Module Dashboard.

(** A DOM element, by its node identity. *)
Definition element := nat.

Record NavItem : Type := { name : string; target : string; icon : string }.

Definition navItems : list NavItem :=
  [ {| name := "Home"; target := "hero"; icon := "pi-home" |};
    {| name := "Create"; target := "create"; icon := "pi-plus" |};
    {| name := "History"; target := "history"; icon := "pi-history" |};
    {| name := "Discover"; target := "discover"; icon := "pi-compass" |};
    {| name := "Profile"; target := ""; icon := "pi-user" |};
    {| name := "Settings"; target := ""; icon := "pi-cog" |} ].

Definition colors : list string :=
  ["#e18e1c"; "#e3911a"; "#e1921a"; "#e39519"; "#e2921a"; "#e3911a"].

(** A value given to an inline style.  The vertical offset of the
    indicator is computed in floating point from the rectangles of the
    active tab, the nav container and the indicator; it is kept as that
    expression. *)
Inductive style_value : Type :=
| Text (s : string)
| CentredOn (activeTab navContainer indicator : element).

(** Callbacks handed to [setTimeout] and [requestAnimationFrame]. *)
Inductive callback : Type :=
| RecalculateOffsets        (* () => this.calculateSectionOffsets() *)
| RecalculateAndReposition  (* calculateSectionOffsets(); updateIndicatorPosition() *)
| UnlockScrollTracking      (* () => (this.isClickScrolling = false) *)
| ScrollFrame.              (* handleScroll(); scrollPending = false *)

Inductive request : Type :=
| Timeout (cb : callback) (ms : nat)    (* setTimeout(cb, ms) *)
| AnimationFrame (cb : callback).       (* requestAnimationFrame(cb) *)

Inductive scroll_request : Type :=
| ScrollToSection (sectionId : string)
| ScrollToTop.

Record SectionOffset : Type := { id : string; top : Z }.

(** The fields of the component, then the part of the browser it acts on:
    the [offsetTop] of the sections present in the document, the inline
    [overflow] style of the body, the inline styles of the indicator, the
    callbacks scheduled and the scroll requests made. *)
Record DashboardComponent : Type := {
  activeIndex : Z;
  isLoggedIn : bool;
  showProfile : bool;
  showLogin : bool;
  showSignup : bool;
  tabs : list element;
  indicator : option element;
  navContainer : option element;
  sectionOffsets : list SectionOffset;
  isClickScrolling : bool;
  scrollPending : bool;
  document_sections : gmap string Z;
  body_overflow : option string;
  indicator_style : gmap string style_value;
  scheduled : list request;
  scrolls : list scroll_request
}.

(** Field updates. *)
Definition set_activeIndex (v : Z) (s : DashboardComponent) :=
  {| activeIndex := v; isLoggedIn := isLoggedIn s; showProfile := showProfile s;
     showLogin := showLogin s; showSignup := showSignup s; tabs := tabs s;
     indicator := indicator s; navContainer := navContainer s;
     sectionOffsets := sectionOffsets s; isClickScrolling := isClickScrolling s;
     scrollPending := scrollPending s; document_sections := document_sections s;
     body_overflow := body_overflow s; indicator_style := indicator_style s;
     scheduled := scheduled s; scrolls := scrolls s |}.

Definition set_isLoggedIn (v : bool) (s : DashboardComponent) :=
  {| activeIndex := activeIndex s; isLoggedIn := v; showProfile := showProfile s;
     showLogin := showLogin s; showSignup := showSignup s; tabs := tabs s;
     indicator := indicator s; navContainer := navContainer s;
     sectionOffsets := sectionOffsets s; isClickScrolling := isClickScrolling s;
     scrollPending := scrollPending s; document_sections := document_sections s;
     body_overflow := body_overflow s; indicator_style := indicator_style s;
     scheduled := scheduled s; scrolls := scrolls s |}.

Definition set_showProfile (v : bool) (s : DashboardComponent) :=
  {| activeIndex := activeIndex s; isLoggedIn := isLoggedIn s; showProfile := v;
     showLogin := showLogin s; showSignup := showSignup s; tabs := tabs s;
     indicator := indicator s; navContainer := navContainer s;
     sectionOffsets := sectionOffsets s; isClickScrolling := isClickScrolling s;
     scrollPending := scrollPending s; document_sections := document_sections s;
     body_overflow := body_overflow s; indicator_style := indicator_style s;
     scheduled := scheduled s; scrolls := scrolls s |}.

Definition set_showLogin (v : bool) (s : DashboardComponent) :=
  {| activeIndex := activeIndex s; isLoggedIn := isLoggedIn s;
     showProfile := showProfile s; showLogin := v; showSignup := showSignup s;
     tabs := tabs s; indicator := indicator s; navContainer := navContainer s;
     sectionOffsets := sectionOffsets s; isClickScrolling := isClickScrolling s;
     scrollPending := scrollPending s; document_sections := document_sections s;
     body_overflow := body_overflow s; indicator_style := indicator_style s;
     scheduled := scheduled s; scrolls := scrolls s |}.

Definition set_showSignup (v : bool) (s : DashboardComponent) :=
  {| activeIndex := activeIndex s; isLoggedIn := isLoggedIn s;
     showProfile := showProfile s; showLogin := showLogin s; showSignup := v;
     tabs := tabs s; indicator := indicator s; navContainer := navContainer s;
     sectionOffsets := sectionOffsets s; isClickScrolling := isClickScrolling s;
     scrollPending := scrollPending s; document_sections := document_sections s;
     body_overflow := body_overflow s; indicator_style := indicator_style s;
     scheduled := scheduled s; scrolls := scrolls s |}.

Definition set_cached (t : list element) (i n : option element)
    (s : DashboardComponent) :=
  {| activeIndex := activeIndex s; isLoggedIn := isLoggedIn s;
     showProfile := showProfile s; showLogin := showLogin s;
     showSignup := showSignup s; tabs := t; indicator := i; navContainer := n;
     sectionOffsets := sectionOffsets s; isClickScrolling := isClickScrolling s;
     scrollPending := scrollPending s; document_sections := document_sections s;
     body_overflow := body_overflow s; indicator_style := indicator_style s;
     scheduled := scheduled s; scrolls := scrolls s |}.

Definition set_sectionOffsets (v : list SectionOffset) (s : DashboardComponent) :=
  {| activeIndex := activeIndex s; isLoggedIn := isLoggedIn s;
     showProfile := showProfile s; showLogin := showLogin s;
     showSignup := showSignup s; tabs := tabs s; indicator := indicator s;
     navContainer := navContainer s; sectionOffsets := v;
     isClickScrolling := isClickScrolling s; scrollPending := scrollPending s;
     document_sections := document_sections s; body_overflow := body_overflow s;
     indicator_style := indicator_style s; scheduled := scheduled s;
     scrolls := scrolls s |}.

Definition set_isClickScrolling (v : bool) (s : DashboardComponent) :=
  {| activeIndex := activeIndex s; isLoggedIn := isLoggedIn s;
     showProfile := showProfile s; showLogin := showLogin s;
     showSignup := showSignup s; tabs := tabs s; indicator := indicator s;
     navContainer := navContainer s; sectionOffsets := sectionOffsets s;
     isClickScrolling := v; scrollPending := scrollPending s;
     document_sections := document_sections s; body_overflow := body_overflow s;
     indicator_style := indicator_style s; scheduled := scheduled s;
     scrolls := scrolls s |}.

Definition set_scrollPending (v : bool) (s : DashboardComponent) :=
  {| activeIndex := activeIndex s; isLoggedIn := isLoggedIn s;
     showProfile := showProfile s; showLogin := showLogin s;
     showSignup := showSignup s; tabs := tabs s; indicator := indicator s;
     navContainer := navContainer s; sectionOffsets := sectionOffsets s;
     isClickScrolling := isClickScrolling s; scrollPending := v;
     document_sections := document_sections s; body_overflow := body_overflow s;
     indicator_style := indicator_style s; scheduled := scheduled s;
     scrolls := scrolls s |}.

Definition set_document_sections (v : gmap string Z) (s : DashboardComponent) :=
  {| activeIndex := activeIndex s; isLoggedIn := isLoggedIn s;
     showProfile := showProfile s; showLogin := showLogin s;
     showSignup := showSignup s; tabs := tabs s; indicator := indicator s;
     navContainer := navContainer s; sectionOffsets := sectionOffsets s;
     isClickScrolling := isClickScrolling s; scrollPending := scrollPending s;
     document_sections := v; body_overflow := body_overflow s;
     indicator_style := indicator_style s; scheduled := scheduled s;
     scrolls := scrolls s |}.

Definition set_body_overflow (v : option string) (s : DashboardComponent) :=
  {| activeIndex := activeIndex s; isLoggedIn := isLoggedIn s;
     showProfile := showProfile s; showLogin := showLogin s;
     showSignup := showSignup s; tabs := tabs s; indicator := indicator s;
     navContainer := navContainer s; sectionOffsets := sectionOffsets s;
     isClickScrolling := isClickScrolling s; scrollPending := scrollPending s;
     document_sections := document_sections s; body_overflow := v;
     indicator_style := indicator_style s; scheduled := scheduled s;
     scrolls := scrolls s |}.

Definition set_indicator_style (k : string) (v : style_value)
    (s : DashboardComponent) :=
  {| activeIndex := activeIndex s; isLoggedIn := isLoggedIn s;
     showProfile := showProfile s; showLogin := showLogin s;
     showSignup := showSignup s; tabs := tabs s; indicator := indicator s;
     navContainer := navContainer s; sectionOffsets := sectionOffsets s;
     isClickScrolling := isClickScrolling s; scrollPending := scrollPending s;
     document_sections := document_sections s; body_overflow := body_overflow s;
     indicator_style := <[k := v]> (indicator_style s);
     scheduled := scheduled s; scrolls := scrolls s |}.

Definition schedule (rq : request) (s : DashboardComponent) :=
  {| activeIndex := activeIndex s; isLoggedIn := isLoggedIn s;
     showProfile := showProfile s; showLogin := showLogin s;
     showSignup := showSignup s; tabs := tabs s; indicator := indicator s;
     navContainer := navContainer s; sectionOffsets := sectionOffsets s;
     isClickScrolling := isClickScrolling s; scrollPending := scrollPending s;
     document_sections := document_sections s; body_overflow := body_overflow s;
     indicator_style := indicator_style s;
     scheduled := scheduled s ++ [rq]; scrolls := scrolls s |}.

Definition scrollTo (r : scroll_request) (s : DashboardComponent) :=
  {| activeIndex := activeIndex s; isLoggedIn := isLoggedIn s;
     showProfile := showProfile s; showLogin := showLogin s;
     showSignup := showSignup s; tabs := tabs s; indicator := indicator s;
     navContainer := navContainer s; sectionOffsets := sectionOffsets s;
     isClickScrolling := isClickScrolling s; scrollPending := scrollPending s;
     document_sections := document_sections s; body_overflow := body_overflow s;
     indicator_style := indicator_style s; scheduled := scheduled s;
     scrolls := scrolls s ++ [r] |}.

(** [document.getElementById(item.target)?.offsetTop ?? 0] for every nav
    item with a non-empty target. *)
Definition calculateSectionOffsets : Js DashboardComponent unit :=
  modify (fun s =>
    set_sectionOffsets
      (map (fun item =>
              {| id := target item;
                 top := match document_sections s !! target item with
                        | Some offsetTop => offsetTop
                        | None => 0%Z
                        end |})
           (List.filter (fun item => truthy (target item)) navItems))
      s).

Definition updateIndicatorPosition : Js DashboardComponent unit :=
  (let! s := get in
   match indicator s, tabs s, navContainer s with
   | None, _, _ | _, [], _ | _, _, None => ret tt
   | Some ind, _ :: _, Some nav =>
       match js_index (tabs s) (activeIndex s) with
       | None => throw TypeError   (* activeTab.getBoundingClientRect() *)
       | Some activeTab =>
           modify (set_indicator_style "transition"
             (Text "top 0.35s cubic-bezier(0.23, 1, 0.32, 1), background 0.3s ease")) ;;;
           modify (set_indicator_style "top" (CentredOn activeTab nav ind)) ;;;
           modify (set_indicator_style "background"
             (Text (nth (Z.to_nat (Z.rem (activeIndex s)
                                         (Z.of_nat (length colors))))
                        colors "")))
       end
   end)%js.

Definition setActive (index : Z) : Js DashboardComponent unit :=
  (modify (set_activeIndex index) ;;; updateIndicatorPosition)%js.

Definition isActive (index : Z) (s : DashboardComponent) : bool :=
  (activeIndex s =? index)%Z.

Definition toggleProfile : Js DashboardComponent unit :=
  modify (fun s => set_showProfile (negb (showProfile s)) s).

Definition closeProfile : Js DashboardComponent unit :=
  modify (set_showProfile false).

Definition updateScrollLock : Js DashboardComponent unit :=
  (let! s := get in
   if negb (isLoggedIn s)
   then modify (set_body_overflow (Some "hidden"))
   else
     modify (set_body_overflow None) ;;;
     modify (schedule (Timeout RecalculateAndReposition 300)))%js.

Definition toggleLogin : Js DashboardComponent unit :=
  modify (fun s => set_showLogin (negb (showLogin s)) s).

Definition closeLogin : Js DashboardComponent unit :=
  (modify (set_showLogin false) ;;;
   modify (set_isLoggedIn true) ;;;
   updateScrollLock)%js.

Definition toggleSignup : Js DashboardComponent unit :=
  modify (fun s => set_showSignup (negb (showSignup s)) s).

Definition closeSignup : Js DashboardComponent unit :=
  (modify (set_showSignup false) ;;;
   modify (set_isLoggedIn true) ;;;
   updateScrollLock)%js.

Definition handleLogout : Js DashboardComponent unit :=
  (modify (set_isLoggedIn false) ;;;
   closeProfile ;;;
   updateScrollLock ;;;
   modify (scrollTo ScrollToTop))%js.

Definition navigateToSection (sectionId : string) (index : Z)
  : Js DashboardComponent unit :=
  match js_index navItems index with
  | None => throw TypeError   (* clicked.name *)
  | Some clicked =>
      if String.eqb (name clicked) "Profile" then toggleProfile
      else
        (setActive index ;;;
         if negb (truthy sectionId) then ret tt
         else
           let! s := get in
           match document_sections s !! sectionId with
           | None => ret tt
           | Some _ =>
               modify (set_isClickScrolling true) ;;;
               modify (scrollTo (ScrollToSection sectionId)) ;;;
               modify (schedule (Timeout UnlockScrollTracking 600))
           end)%js
  end.

Definition onWindowScroll : Js DashboardComponent unit :=
  (let! s := get in
   if isClickScrolling s || negb (isLoggedIn s) then ret tt
   else if scrollPending s then ret tt
   else
     modify (set_scrollPending true) ;;;
     modify (schedule (AnimationFrame ScrollFrame)))%js.

(** The loop of [handleScroll]: the greatest [i] below [n] whose section
    starts at or above the probe line [scrollY + innerHeight / 3]; the
    comparison is made on the triples, where it is exact. *)
Fixpoint lastSectionAbove (offsets : list SectionOffset)
    (scrollY innerHeight : Z) (n : nat) : option nat :=
  match n with
  | O => None
  | S i =>
      match offsets !! i with
      | Some o =>
          if (3 * top o <=? 3 * scrollY + innerHeight)%Z then Some i
          else lastSectionAbove offsets scrollY innerHeight i
      | None => lastSectionAbove offsets scrollY innerHeight i
      end
  end.

Definition handleScroll (scrollY innerHeight : Z) : Js DashboardComponent unit :=
  (let! s := get in
   match lastSectionAbove (sectionOffsets s) scrollY innerHeight
           (length (sectionOffsets s)) with
   | Some i =>
       if negb (activeIndex s =? Z.of_nat i)%Z
       then modify (set_activeIndex (Z.of_nat i)) ;;; updateIndicatorPosition
       else ret tt
   | None => ret tt
   end)%js.

Definition onResize : Js DashboardComponent unit := calculateSectionOffsets.

(** Running a scheduled callback; the scroll frame reads the window's
    [scrollY] and [innerHeight] when it runs. *)
Definition run (cb : callback) (scrollY innerHeight : Z)
  : Js DashboardComponent unit :=
  match cb with
  | RecalculateOffsets => calculateSectionOffsets
  | RecalculateAndReposition =>
      (calculateSectionOffsets ;;; updateIndicatorPosition)%js
  | UnlockScrollTracking => modify (set_isClickScrolling false)
  | ScrollFrame =>
      (handleScroll scrollY innerHeight ;;; modify (set_scrollPending false))%js
  end.

Definition ngAfterViewInit (navTabs : list element)
    (navIndicator navBox : option element) : Js DashboardComponent unit :=
  (modify (set_cached navTabs navIndicator navBox) ;;;
   updateIndicatorPosition ;;;
   modify (schedule (Timeout RecalculateOffsets 200)) ;;;
   updateScrollLock)%js.

(** The component as constructed, in a document whose body has the inline
    overflow [ov]. *)
Definition create (sections : gmap string Z) (ov : option string)
    (st : gmap string style_value) : DashboardComponent :=
  {| activeIndex := 0; isLoggedIn := false; showProfile := false;
     showLogin := false; showSignup := false; tabs := [];
     indicator := None; navContainer := None; sectionOffsets := [];
     isClickScrolling := false; scrollPending := false;
     document_sections := sections; body_overflow := ov;
     indicator_style := st; scheduled := []; scrolls := [] |}.

(** What can happen to a mounted component: a call of one of its public
    methods from the template, a browser event, a scheduled callback
    running, or the document being laid out anew. *)
Inductive event : Type :=
| NavigateToSection (sectionId : string) (index : Z)
| SetActive (index : Z)
| ToggleProfile | CloseProfile
| ToggleLogin | CloseLogin
| ToggleSignup | CloseSignup
| HandleLogout
| WindowScroll | WindowResize
| Run (cb : callback) (scrollY innerHeight : Z)
| Layout (sections : gmap string Z).

Definition perform (e : event) : Js DashboardComponent unit :=
  match e with
  | NavigateToSection sectionId index => navigateToSection sectionId index
  | SetActive index => setActive index
  | ToggleProfile => toggleProfile
  | CloseProfile => closeProfile
  | ToggleLogin => toggleLogin
  | CloseLogin => closeLogin
  | ToggleSignup => toggleSignup
  | CloseSignup => closeSignup
  | HandleLogout => handleLogout
  | WindowScroll => onWindowScroll
  | WindowResize => onResize
  | Run cb scrollY innerHeight => run cb scrollY innerHeight
  | Layout sections => modify (set_document_sections sections)
  end.

Inductive reachable : DashboardComponent -> Prop :=
| reach_mounted sections ov st navTabs navIndicator navBox :
    reachable (exec (ngAfterViewInit navTabs navIndicator navBox)
                    (create sections ov st))
| reach_event s e :
    reachable s -> reachable (exec (perform e) s).

(** A modal is open. *)
Definition modalOpen (s : DashboardComponent) : bool :=
  showLogin s || showSignup s || showProfile s.

(** Page scroll is disabled. *)
Definition scrollLocked (s : DashboardComponent) : bool :=
  match body_overflow s with
  | Some v => String.eqb v "hidden"
  | None => false
  end.

(** The login flag and the body's overflow style. *)
Definition lock_view (s : DashboardComponent) : bool * option string :=
  (isLoggedIn s, body_overflow s).

(** The three modal flags. *)
Definition modal_view (s : DashboardComponent) : bool * bool * bool :=
  (showProfile s, showLogin s, showSignup s).

(** A method that leaves [view] as it found it, on return and on throw. *)
Definition preserves {T A} (view : DashboardComponent -> T)
    (m : Js DashboardComponent A) : Prop :=
  forall s, view (exec m s) = view s.

(** The body's overflow is 'hidden' when nobody is logged in, and
    unset otherwise. *)
Definition lock_follows_login (s : DashboardComponent) : Prop :=
  body_overflow s = if isLoggedIn s then None else Some "hidden".

End Dashboard.

(** ** Sequences of operations *)

Module Runs.

(** The history component after the events [es], in order. *)
Definition history_run (JSON_stringify : list History.PostHistory -> string)
    (es : list History.event) (s : History.HistoryComponent)
  : History.HistoryComponent :=
  fold_left (fun s e => exec (History.perform JSON_stringify e) s) es s.

(** [likePost(index)] called [k] times. *)
Definition like_times (k : nat) (index : Z) (s : Discover.DiscoverComponent)
  : Discover.DiscoverComponent :=
  Nat.iter k (exec (Discover.likePost index)) s.

(** [nextCard()] called [k] times. *)
Definition next_times (k : nat) (c : Create.CreateComponent)
  : Create.CreateComponent :=
  Nat.iter k Create.nextCard c.

(** The carousel after a sequence of clicks, [true] for [nextCard()] and
    [false] for [prevCard()], and the net number of steps forward. *)
Definition carousel_run (clicks : list bool) (c : Create.CreateComponent)
  : Create.CreateComponent :=
  fold_left (fun c forward =>
               if forward : bool then Create.nextCard c else Create.prevCard c)
            clicks c.

Definition net_steps (clicks : list bool) : Z :=
  fold_left (fun k forward => if forward : bool then k + 1 else k - 1)%Z
            clicks 0%Z.

(** The dashboard after the events [es], in order. *)
Definition dashboard_run (es : list Dashboard.event)
    (s : Dashboard.DashboardComponent) : Dashboard.DashboardComponent :=
  fold_left (fun s e => exec (Dashboard.perform e) s) es s.

(** Every code unit of [s] is white space. *)
Definition blank (s : string) : bool :=
  forallb is_space (list_ascii_of_string s).

(** The section at [o] starts at or above the probe line of
    [handleScroll], [scrollY + innerHeight / 3]. *)
Definition reached (scrollY innerHeight : Z) (o : Dashboard.SectionOffset)
  : Prop :=
  (3 * Dashboard.top o <= 3 * scrollY + innerHeight)%Z.

(** The events that are calls of the modal operations: the toggles, the
    closes, the logout, and a click on the Profile nav item. *)
Definition modal_operation (e : Dashboard.event) : bool :=
  match e with
  | Dashboard.NavigateToSection _ index =>
      match js_index Dashboard.navItems index with
      | Some item => String.eqb (Dashboard.name item) "Profile"
      | None => false
      end
  | Dashboard.ToggleProfile | Dashboard.CloseProfile
  | Dashboard.ToggleLogin | Dashboard.CloseLogin
  | Dashboard.ToggleSignup | Dashboard.CloseSignup
  | Dashboard.HandleLogout => true
  | _ => false
  end.

(** A scroll frame callback. *)
Definition scroll_frame (e : Dashboard.event) : bool :=
  match e with
  | Dashboard.Run Dashboard.ScrollFrame _ _ => true
  | _ => false
  end.

End Runs.

(** ** Sample states *)

Module Samples.

(** Stand-ins for [JSON.parse] and [JSON.stringify] in the sample runs: a
    parser that accepts the text of the empty array and rejects every
    other text (the runs below parse nothing but the text "{oops", which
    is not JSON), and an encoder that lists the titles.  The properties
    are proved for every parser and every encoder. *)
Definition parse_empty_array (text : string) : option History.parsed :=
  if String.eqb text "[]" then Some (History.PostArray []) else None.

Definition encode_titles (posts : list History.PostHistory) : string :=
  "[" ++ join "," (map History.title posts) ++ "]".

Definition yes (d : History.dialog) : bool := true.

Definition clock : string := "2024-05-01T10:00:00.000Z".

Definition note (t d : string) : History.PostHistory :=
  {| History.title := t; History.description := d; History.caption := None;
     History.date := clock; History.tags := None |}.

(** One post whose title is "a" and whose description is "b", searched
    for "a b". *)
Definition across_fields : History.HistoryComponent :=
  {| History.history := [0%nat]; History.filteredHistory := [0%nat];
     History.searchQuery := "a b";
     History.heap := fun _ => note "a" "b";
     History.brk := 1%nat; History.localStorage := ∅; History.shown := [] |}.

(** Two posts, searched for " WORLD". *)
Definition two_notes : History.HistoryComponent :=
  {| History.history := [0%nat; 1%nat]; History.filteredHistory := [0%nat; 1%nat];
     History.searchQuery := " WORLD";
     History.heap := fun r => match r with
                              | O => note "Hello World" "first"
                              | _ => note "Other" "second"
                              end;
     History.brk := 2%nat; History.localStorage := ∅; History.shown := [] |}.

(** A browser whose storage holds text that is not JSON. *)
Definition broken_storage : History.HistoryComponent :=
  History.create (fun _ => note "" "") 0%nat {["postHistory" := "{oops"]}.

(** The history component mounted on an empty storage. *)
Definition mounted : History.HistoryComponent :=
  exec (History.ngOnInit parse_empty_array clock)
       (History.create (fun _ => note "" "") 0%nat ∅).

(** A source of random numbers, and the discover component mounted
    with it. *)
Definition dice (k : nat) (n : Z) : Z := (Z.of_nat k * 37 + 11) mod n.

Definition blank : Discover.DiscoverPost :=
  {| Discover.title := ""; Discover.description := ""; Discover.author := "";
     Discover.likes := 0; Discover.tags := []; Discover.image := None |}.

Definition feed : Discover.DiscoverComponent :=
  exec (Discover.ngOnInit dice) (Discover.create (fun _ => blank) 0%nat).

(** The carousel showing its last card. *)
Definition carousel : Create.CreateComponent :=
  Create.set_currentCardIndex 2 Create.initial.

(** The dashboard mounted in a document without nav elements, and in
    one with three tabs. *)
Definition bare_page : Dashboard.DashboardComponent :=
  exec (Dashboard.ngAfterViewInit [] None None) (Dashboard.create ∅ None ∅).

Definition page : Dashboard.DashboardComponent :=
  exec (Dashboard.ngAfterViewInit [10; 11; 12]%nat (Some 1%nat) (Some 2%nat))
       (Dashboard.create {["hero" := 0%Z; "create" := 800%Z]} None ∅).

(** The history and discover components as constructed, before they
    are mounted. *)
Definition unmounted_history : History.HistoryComponent :=
  History.create (fun _ => note "" "") 0%nat ∅.

Definition unmounted_feed : Discover.DiscoverComponent :=
  Discover.create (fun _ => blank) 0%nat.

End Samples.

(** ** More sample states *)

Module MoreSamples.

(** The text [JSON.stringify] gives for a list of posts whose properties
    were set in the order of the interface and whose texts need no
    escape. *)
Definition quoted (s : string) : string :=
  String (ascii_of_nat 34) s ++ String (ascii_of_nat 34) "".

Definition encode_post (p : History.PostHistory) : string :=
  "{" ++ quoted "title" ++ ":" ++ quoted (History.title p)
  ++ "," ++ quoted "description" ++ ":" ++ quoted (History.description p)
  ++ match History.caption p with
     | Some c => "," ++ quoted "caption" ++ ":" ++ quoted c
     | None => ""
     end
  ++ "," ++ quoted "date" ++ ":" ++ quoted (History.date p)
  ++ match History.tags p with
     | Some t => "," ++ quoted "tags" ++ ":[" ++ join "," (map quoted t) ++ "]"
     | None => ""
     end
  ++ "}".

Definition encode_posts (posts : list History.PostHistory) : string :=
  "[" ++ join "," (map encode_post posts) ++ "]".

(** A stand-in for [JSON.parse] that knows three texts: the empty array,
    null, and the array holding the one post "Other"; it rejects every
    other text, and the runs below give it no other JSON text. *)
Definition parse_samples (text : string) : option History.parsed :=
  if String.eqb text "[]" then Some (History.PostArray [])
  else if String.eqb text "null" then Some History.NotIterable
  else if String.eqb text (encode_posts [Samples.note "Other" "second"])
       then Some (History.PostArray [Samples.note "Other" "second"])
       else None.

(** Browsers whose storage holds the text null, and the encoding of the
    one post "Other". *)
Definition null_stored : History.HistoryComponent :=
  History.create (fun _ => Samples.note "" "") 0%nat {["postHistory" := "null"]}.

Definition other_stored : History.HistoryComponent :=
  History.create (fun _ => Samples.note "" "") 0%nat
    {["postHistory" := encode_posts [Samples.note "Other" "second"]]}.

(** The two posts of [Samples.two_notes], shown unfiltered. *)
Definition pair_of_notes : History.HistoryComponent :=
  History.set_searchQuery "" Samples.two_notes.

(** A browser whose storage holds the text of the empty array. *)
Definition empty_array_stored : History.HistoryComponent :=
  History.create (fun _ => Samples.note "" "") 0%nat {["postHistory" := "[]"]}.

Definition no (d : History.dialog) : bool := false.

(** The page of [Samples.page] (three tabs) after login, with the section
    offsets calculated, and a scroll frame requested. *)
Definition tracking_page : Dashboard.DashboardComponent :=
  Runs.dashboard_run
    [Dashboard.CloseLogin; Dashboard.Run Dashboard.RecalculateOffsets 0 0;
     Dashboard.WindowScroll]
    Samples.page.

(** The same with six tabs, one per nav item. *)
Definition full_page : Dashboard.DashboardComponent :=
  Runs.dashboard_run
    [Dashboard.CloseLogin; Dashboard.Run Dashboard.RecalculateOffsets 0 0]
    (exec (Dashboard.ngAfterViewInit [10; 11; 12; 13; 14; 15]%nat
                                     (Some 1%nat) (Some 2%nat))
          (Dashboard.create
             {["hero" := 0%Z; "create" := 800%Z; "history" := 1600%Z;
               "discover" := 2400%Z]} None ∅)).

End MoreSamples.

(** * Properties *)

(** ** Strings *)

Module JsStringFacts.

Lemma append_empty_l (s : string) : "" ++ s = s.
Proof. reflexivity. Qed.

Lemma append_cons (c : ascii) (a b : string) :
  String c a ++ b = String c (a ++ b).
Proof. reflexivity. Qed.

Ltac norm := rewrite ?append_empty_l, ?append_cons.
Ltac norm_in H := rewrite ?append_empty_l, ?append_cons in H.

Lemma append_empty_r (s : string) : s ++ "" = s.
Proof. induction s as [|c s IH]; norm; [reflexivity | now rewrite IH]. Qed.

Lemma append_assoc (a b c : string) : (a ++ b) ++ c = a ++ (b ++ c).
Proof. induction a as [|x a IH]; norm; [reflexivity | now rewrite IH]. Qed.

Lemma toLowerCase_app (a b : string) :
  toLowerCase (a ++ b) = toLowerCase a ++ toLowerCase b.
Proof.
  induction a as [|x a IH]; norm; cbn [toLowerCase]; norm;
    [reflexivity | now rewrite IH].
Qed.

Lemma startsWith_spec (s q : string) :
  startsWith s q = true <-> exists suf, s = q ++ suf.
Proof.
  revert s. induction q as [|a q IH]; intros s; cbn [startsWith].
  - split; [intros _; now exists s | now destruct s].
  - destruct s as [|b s]; cbn [startsWith].
    + split; [discriminate | intros [suf H]; discriminate].
    + destruct (Ascii.eqb_spec a b) as [->|Hne].
      * split.
        -- intros H. apply IH in H. destruct H as [suf ->]. now exists suf.
        -- intros [suf H]. norm_in H. apply IH. exists suf. congruence.
      * split; [discriminate | intros [suf H]; norm_in H; congruence].
Qed.

Lemma includes_spec (s q : string) :
  includes s q = true <-> Substring q s.
Proof.
  unfold Substring. induction s as [|c s IH].
  - cbn [includes]. rewrite orb_false_r, startsWith_spec. split.
    + intros [suf H]. now exists "", suf.
    + intros [pre [suf H]]. destruct pre; [now exists suf | discriminate].
  - cbn [includes]. rewrite orb_true_iff, startsWith_spec, IH. split.
    + intros [[suf H] | [pre [suf H]]].
      * now exists "", suf.
      * exists (String c pre), suf. norm. now rewrite H.
    + intros [pre [suf H]]. destruct pre as [|c' pre].
      * left. now exists suf.
      * right. exists pre, suf. norm_in H. congruence.
Qed.

Lemma Substring_refl (s : string) : Substring s s.
Proof. exists "", "". norm. now rewrite append_empty_r. Qed.

Lemma Substring_trans (a b c : string) :
  Substring a b -> Substring b c -> Substring a c.
Proof.
  intros [p1 [s1 ->]] [p2 [s2 ->]].
  exists (p2 ++ p1), (s1 ++ s2). now rewrite !append_assoc.
Qed.

Lemma Substring_app_l (q a b : string) : Substring q a -> Substring q (a ++ b).
Proof.
  intros [p [s ->]]. exists p, (s ++ b). now rewrite !append_assoc.
Qed.

Lemma Substring_app_r (q a b : string) : Substring q b -> Substring q (a ++ b).
Proof.
  intros [p [s ->]]. exists (a ++ p), s. now rewrite !append_assoc.
Qed.

Lemma Substring_toLowerCase (a b : string) :
  Substring a b -> Substring (toLowerCase a) (toLowerCase b).
Proof.
  intros [p [s ->]]. exists (toLowerCase p), (toLowerCase s).
  now rewrite !toLowerCase_app.
Qed.

Lemma Substring_cons (q : string) (c : ascii) (s : string) :
  Substring q s -> Substring q (String c s).
Proof. apply (Substring_app_r q (String c "") s). Qed.

Lemma trimStart_Substring (s : string) : Substring (trimStart s) s.
Proof.
  induction s as [|c s IH]; cbn [trimStart].
  - apply Substring_refl.
  - destruct (is_space c); [now apply Substring_cons | apply Substring_refl].
Qed.

(** What [trimEnd] keeps is a prefix. *)
Lemma trimEnd_prefix (s : string) : exists u, s = trimEnd s ++ u.
Proof.
  induction s as [|c s [u IH]]; cbn [trimEnd].
  - now exists "".
  - destruct (trimEnd s) as [|d t] eqn:E.
    + destruct (is_space c); [now exists (String c s) | now exists s].
    + exists u. norm. norm_in IH. now rewrite IH at 1.
Qed.

Lemma trimEnd_Substring (s : string) : Substring (trimEnd s) s.
Proof. destruct (trimEnd_prefix s) as [u H]. now exists "", u. Qed.

Lemma trim_Substring (s : string) : Substring (trim s) s.
Proof.
  unfold trim. eapply Substring_trans;
    [apply trimEnd_Substring | apply trimStart_Substring].
Qed.

Lemma join_Substring (sep x : string) (l : list string) :
  x ∈ l -> Substring x (join sep l).
Proof.
  induction l as [|y l IH]; intros Hin.
  - now apply elem_of_nil in Hin.
  - apply elem_of_cons in Hin as [->|Hin].
    + destruct l as [|z l]; [apply Substring_refl|].
      cbn [join]. apply Substring_app_l, Substring_refl.
    + destruct l as [|z l]; [now apply elem_of_nil in Hin|].
      change (join sep (y :: z :: l)) with (y ++ sep ++ join sep (z :: l)).
      now apply Substring_app_r, Substring_app_r, IH.
Qed.

End JsStringFacts.

(** ** Arrays *)

Module ArrayFacts.

Lemma js_index_Some {A} (l : list A) (i : Z) (x : A) :
  js_index l i = Some x <->
  (0 <= i)%Z /\ l !! Z.to_nat i = Some x.
Proof.
  unfold js_index. destruct (Z.ltb_spec i 0); split.
  - discriminate.
  - intros [? _]. lia.
  - auto.
  - now intros [_ ?].
Qed.

Lemma js_index_None {A} (l : list A) (i : Z) :
  js_index l i = None <-> (i < 0 \/ Z.of_nat (length l) <= i)%Z.
Proof.
  unfold js_index. destruct (Z.ltb_spec i 0).
  - split; [now left | reflexivity].
  - rewrite lookup_ge_None. lia.
Qed.

Lemma indexOf_ge (l : list ref) (x : ref) : (-1 <= indexOf l x)%Z.
Proof.
  induction l as [|y l IH]; cbn [indexOf]; [lia|].
  destruct (Nat.eqb y x); [lia|].
  destruct (Z.ltb_spec (indexOf l x) 0); lia.
Qed.

(** [indexOf] finds the first position of an element of the array. *)
Lemma indexOf_elem (l : list ref) (x : ref) :
  x ∈ l ->
  exists i, indexOf l x = Z.of_nat i /\ l !! i = Some x.
Proof.
  induction l as [|y l IH]; intros Hin.
  - now apply elem_of_nil in Hin.
  - cbn [indexOf]. destruct (Nat.eqb_spec y x) as [->|Hne].
    + now exists 0%nat.
    + apply elem_of_cons in Hin as [->|Hin]; [congruence|].
      destruct (IH Hin) as [i [Hi Hl]]. rewrite Hi.
      destruct (Z.ltb_spec (Z.of_nat i) 0); [lia|].
      exists (S i). split; [lia | exact Hl].
Qed.

Lemma indexOf_absent (l : list ref) (x : ref) :
  x ∉ l -> indexOf l x = (-1)%Z.
Proof.
  induction l as [|y l IH]; intros Hin; cbn [indexOf]; [reflexivity|].
  apply not_elem_of_cons in Hin as [Hne Hin].
  destruct (Nat.eqb_spec y x) as [->|_]; [congruence|].
  now rewrite (IH Hin).
Qed.

Lemma splice1_at {A} (l : list A) (i : nat) :
  splice1 l (Z.of_nat i) = delete i l.
Proof.
  unfold splice1. destruct (Z.ltb_spec (Z.of_nat i) 0); [lia|].
  destruct (Nat.le_gt_cases (length l) i).
  - rewrite Z.min_r by lia. rewrite Nat2Z.id.
    rewrite !delete_take_drop.
    rewrite !drop_ge, !take_ge by lia. reflexivity.
  - rewrite Z.min_l by lia. now rewrite Nat2Z.id.
Qed.

(** [splice(-1, 1)] removes the last element. *)
Lemma splice1_minus_one {A} (l : list A) (x : A) :
  splice1 (l ++ [x]) (-1) = l.
Proof.
  unfold splice1. rewrite length_app. cbn [length].
  replace (Z.to_nat _) with (length l + 0)%nat
    by (destruct (Z.ltb_spec (-1) 0); lia).
  rewrite delete_take_drop, take_app_add, drop_app_ge by lia.
  replace (S (length l + 0) - length l)%nat with 1%nat by lia.
  cbn. now rewrite !app_nil_r.
Qed.

Lemma NoDup_delete_absent {A} (l : list A) (i : nat) (x : A) :
  NoDup l -> l !! i = Some x -> x ∉ delete i l.
Proof.
  intros Hnd Hl Hin. apply list_elem_of_lookup in Hin as [j Hj].
  destruct (Nat.lt_ge_cases j i).
  - rewrite list_lookup_delete_lt in Hj by done.
    pose proof (NoDup_lookup _ _ _ _ Hnd Hl Hj). lia.
  - rewrite list_lookup_delete_ge in Hj by done.
    pose proof (NoDup_lookup _ _ _ _ Hnd Hl Hj). lia.
Qed.

Lemma filter_sublist {A} (f : A -> bool) (l : list A) :
  sublist (List.filter f l) l.
Proof.
  induction l as [|x l IH]; cbn [List.filter]; [constructor|].
  destruct (f x); now constructor.
Qed.

Lemma elem_of_filter {A} (f : A -> bool) (l : list A) (x : A) :
  x ∈ List.filter f l <-> x ∈ l /\ f x = true.
Proof. rewrite !list_elem_of_In. apply filter_In. Qed.

(** Deleting from an array without repetition commutes with filtering:
    the element leaves the filtered array at its position there. *)
Lemma filter_delete {A} (f : A -> bool) (l : list A) (i k : nat) (x : A) :
  NoDup l ->
  l !! i = Some x ->
  List.filter f l !! k = Some x ->
  List.filter f (delete i l) = delete k (List.filter f l).
Proof.
  intros Hnd Hi Hk.
  assert (Hfx : f x = true).
  { apply list_elem_of_lookup_2 in Hk. now apply elem_of_filter in Hk. }
  assert (Hndf : NoDup (List.filter f l))
    by (eapply sublist_NoDup; [exact Hnd | apply filter_sublist]).
  apply list_elem_of_split_length in Hi as (l1 & l2 & -> & ->).
  rewrite delete_middle.
  rewrite !List.filter_app in *. cbn [List.filter] in *.
  rewrite Hfx in *.
  assert (k = length (List.filter f l1)) as ->.
  { eapply NoDup_lookup; [exact Hndf | exact Hk |].
    now rewrite list_lookup_middle. }
  now rewrite delete_middle.
Qed.

(** Objects created at the next free references are read back in order,
    and older objects are left alone. *)
Lemma fresh_objects_read {A} (h : ref -> A) (b : ref) (vs : list A) :
  map (fun r => if (b <=? r)%nat
                then match vs !! (r - b)%nat with
                     | Some v => v
                     | None => h r
                     end
                else h r)
      (seq b (length vs)) = vs.
Proof.
  apply list_eq. intros i.
  change (map ?f ?l) with (f <$> l). rewrite list_lookup_fmap.
  destruct (vs !! i) as [v|] eqn:E.
  - assert (i < length vs)%nat by (now apply lookup_lt_Some in E).
    rewrite lookup_seq_lt by done. cbn [fmap option_fmap option_map].
    destruct (Nat.leb_spec b (b + i)); [|lia].
    replace (b + i - b)%nat with i by lia. now rewrite E.
  - apply lookup_ge_None in E. now rewrite lookup_seq_ge.
Qed.

End ArrayFacts.

(** ** The history component *)

Module HistoryFacts.
Import History JsStringFacts ArrayFacts.

Example across_fields_kept :
  filteredHistory (exec applyFilter Samples.across_fields) = [0%nat].
Proof. reflexivity. Qed.

Example two_notes_filtered :
  filteredHistory (exec applyFilter Samples.two_notes) = [0%nat].
Proof. reflexivity. Qed.

Example mounted_titles :
  map (fun r => title (heap Samples.mounted r)) (history Samples.mounted)
  = ["Sample Post 1"; "Sample Post 2"; "Sample Post 3"; "Sample Post 4";
     "Sample Post 5"; "Sample Post 6"; "Sample Post 7"; "Sample Post 8";
     "Sample Post 9"; "Sample Post 10"].
Proof. reflexivity. Qed.

Example mounted_tags :
  map (fun r => tags (heap Samples.mounted r)) (take 2 (history Samples.mounted))
  = [Some ["Demo"; "History"; "Tag0"]; Some ["Demo"; "History"; "Tag1"]].
Proof. reflexivity. Qed.

(** *** The filter *)

Lemma applyFilter_returns (s : HistoryComponent) :
  completion applyFilter s = Returned tt.
Proof. reflexivity. Qed.

Lemma applyFilter_frame (s : HistoryComponent) :
  history (exec applyFilter s) = history s /\
  heap (exec applyFilter s) = heap s /\
  brk (exec applyFilter s) = brk s /\
  searchQuery (exec applyFilter s) = searchQuery s /\
  localStorage (exec applyFilter s) = localStorage s /\
  shown (exec applyFilter s) = shown s.
Proof. repeat split. Qed.

Lemma truthy_false (q : string) : truthy q = false <-> q = "".
Proof. destruct q; split; (reflexivity || discriminate). Qed.

Lemma applyFilter_empty (s : HistoryComponent) :
  trim (toLowerCase (searchQuery s)) = "" ->
  filteredHistory (exec applyFilter s) = history s.
Proof.
  intros Hq. unfold exec, applyFilter, modify. cbn [snd filteredHistory set_filteredHistory].
  now rewrite Hq.
Qed.

Lemma applyFilter_nonempty (s : HistoryComponent) :
  trim (toLowerCase (searchQuery s)) <> "" ->
  filteredHistory (exec applyFilter s)
  = List.filter
      (fun post => includes (haystack (heap s post))
                            (trim (toLowerCase (searchQuery s))))
      (history s).
Proof.
  intros Hq. unfold exec, applyFilter, modify. cbn [snd filteredHistory set_filteredHistory].
  destruct (truthy _) eqn:E; [reflexivity|].
  now apply truthy_false in E.
Qed.

Lemma applyFilter_sublist (s : HistoryComponent) :
  sublist (filteredHistory (exec applyFilter s)) (history s).
Proof.
  destruct (string_dec (trim (toLowerCase (searchQuery s))) "") as [Hq|Hq].
  - now rewrite applyFilter_empty.
  - rewrite applyFilter_nonempty by done. apply filter_sublist.
Qed.

Lemma caption_or_empty_Some (post : PostHistory) (c : string) :
  caption post = Some c -> caption_or_empty post = c.
Proof. unfold caption_or_empty. intros ->. now destruct c. Qed.

(** A field that contains the term puts the trimmed, lower-cased term in
    the searched text. *)
Lemma field_in_haystack (post : PostHistory) (term : string) :
  some_field_contains term post = true ->
  Substring (trim (toLowerCase term)) (haystack post).
Proof.
  unfold some_field_contains. rewrite existsb_exists.
  intros [f [Hin Hf]]. unfold field_contains in Hf.
  apply includes_spec in Hf.
  eapply Substring_trans; [apply trim_Substring|].
  eapply Substring_trans; [exact Hf|].
  unfold haystack. apply Substring_toLowerCase, join_Substring.
  apply list_elem_of_In in Hin. unfold fields in Hin.
  rewrite !elem_of_app in Hin. rewrite elem_of_app.
  destruct Hin as [Hin | [Hin | Hin]].
  - left. rewrite !elem_of_cons in *. tauto.
  - left. destruct (caption post) as [c|] eqn:E;
      [|now apply elem_of_nil in Hin].
    apply list_elem_of_singleton in Hin. subst f.
    rewrite (caption_or_empty_Some post c E).
    rewrite !elem_of_cons. tauto.
  - now right.
Qed.

(** C1, as the code has it: with [q] the lower-cased, trimmed search term,
    [applyFilter] returns, touches nothing but the filtered view, and leaves
    there, in the order of [history], the full list when [q] is empty (in
    particular for the empty term) and otherwise exactly the posts whose
    title, description, caption and tags, joined by single spaces and
    lower-cased, contain [q]; every post one of whose fields contains the
    term without regard to case is among them. *)
Theorem applyFilter_joined_text (s : HistoryComponent) :
  let q := trim (toLowerCase (searchQuery s)) in
  let s' := exec applyFilter s in
  completion applyFilter s = Returned tt /\
  history s' = history s /\
  sublist (filteredHistory s') (history s) /\
  (searchQuery s = "" -> filteredHistory s' = history s) /\
  ((q = "" /\ filteredHistory s' = history s) \/
   (q <> "" /\
    forall post, post ∈ filteredHistory s' <->
                 post ∈ history s /\ Substring q (haystack (heap s post)))) /\
  (forall post, post ∈ history s ->
                some_field_contains (searchQuery s) (heap s post) = true ->
                post ∈ filteredHistory s').
Proof.
  intros q s'. subst s'.
  split; [reflexivity|]. split; [reflexivity|].
  split; [apply applyFilter_sublist|].
  split; [intros Hs; apply applyFilter_empty; now rewrite Hs|].
  destruct (string_dec q "") as [Hq|Hq]; subst q.
  - rewrite applyFilter_empty by done. split; [now left | now intros].
  - rewrite applyFilter_nonempty by done. split.
    + right. split; [done|]. intros post.
      rewrite elem_of_filter, includes_spec. reflexivity.
    + intros post Hin Hf. apply elem_of_filter. split; [done|].
      apply includes_spec. now apply field_in_haystack.
Qed.

Lemma applyFilter_joined_text_witness :
  filteredHistory (exec applyFilter Samples.two_notes) = [0%nat] /\
  0%nat ∈ filteredHistory (exec applyFilter Samples.two_notes).
Proof.
  split; [reflexivity|].
  apply (applyFilter_joined_text Samples.two_notes).
  - apply list_elem_of_here.
  - reflexivity.
Defined.

(** C1 as worded fails: the post of [Samples.across_fields] has the title
    "a" and the description "b"; none of its fields contains the term
    "a b", and the post is kept. *)
Lemma applyFilter_matches_across_fields :
  searchQuery Samples.across_fields <> "" /\
  some_field_contains (searchQuery Samples.across_fields)
                      (heap Samples.across_fields 0%nat) = false /\
  filteredHistory (exec applyFilter Samples.across_fields) = [0%nat] /\
  filteredHistory (exec applyFilter Samples.across_fields)
  <> List.filter
       (fun post => some_field_contains (searchQuery Samples.across_fields)
                                        (heap Samples.across_fields post))
       (history Samples.across_fields).
Proof. repeat split; discriminate. Qed.

(** *** Loading *)

Lemma allocate_spec (vs : list PostHistory) (s : HistoryComponent) :
  completion (allocate vs) s = Returned (seq (brk s) (length vs)) /\
  map (heap (exec (allocate vs) s)) (seq (brk s) (length vs)) = vs /\
  brk (exec (allocate vs) s) = (brk s + length vs)%nat /\
  history (exec (allocate vs) s) = history s /\
  filteredHistory (exec (allocate vs) s) = filteredHistory s /\
  localStorage (exec (allocate vs) s) = localStorage s.
Proof.
  split; [reflexivity|]. split; [|repeat split].
  apply fresh_objects_read.
Qed.

Lemma loadHistory_fallback JSON_parse now (s : HistoryComponent) :
  (localStorage s !! "postHistory" = None \/
   exists text, localStorage s !! "postHistory" = Some text /\
                JSON_parse text = None) ->
  loadHistory JSON_parse now s = (Returned true, with_placeholders now s).
Proof.
  intros H.
  unfold loadHistory, try_catch, bind, get, getPlaceholderHistory, assign_history.
  destruct H as [H | [text [H Hp]]]; rewrite H.
  - reflexivity.
  - destruct (truthy text); [|reflexivity].
    unfold parse. now rewrite Hp.
Qed.

(** C2: when the key 'postHistory' is absent from local storage, or holds
    text that [JSON.parse] rejects, mounting the component returns normally
    with a history of exactly ten posts, which are the ten generated
    placeholders, pairwise distinct objects, all of them in the filtered
    view. *)
Theorem ngOnInit_falls_back_to_placeholders
    (JSON_parse : string -> option parsed) (now : string)
    (s : HistoryComponent) :
  (localStorage s !! "postHistory" = None \/
   exists text, localStorage s !! "postHistory" = Some text /\
                JSON_parse text = None) ->
  let s' := exec (ngOnInit JSON_parse now) s in
  completion (ngOnInit JSON_parse now) s = Returned tt /\
  length (history s') = 10%nat /\
  map (heap s') (history s') = map (placeholder now) (seq 0 10) /\
  NoDup (history s') /\
  filteredHistory s' = history s'.
Proof.
  intros H s'. subst s'.
  unfold exec, completion, ngOnInit, bind.
  rewrite (loadHistory_fallback JSON_parse now s H).
  cbn [fst snd modify history filteredHistory heap set_filteredHistory
       with_placeholders set_history].
  split; [reflexivity|]. split; [apply length_seq|].
  split; [|split; [apply NoDup_seq | reflexivity]].
  apply (fresh_objects_read (heap s) (brk s) (map (placeholder now) (seq 0 10))).
Qed.

Lemma ngOnInit_falls_back_to_placeholders_witness :
  length (history (exec (ngOnInit Samples.parse_empty_array Samples.clock)
                        Samples.broken_storage)) = 10%nat.
Proof.
  apply (ngOnInit_falls_back_to_placeholders
           Samples.parse_empty_array Samples.clock Samples.broken_storage).
  right. exists "{oops". split; reflexivity.
Defined.

(** *** Deleting and viewing *)

Section Delete.

Variable JSON_stringify : list PostHistory -> string.
Variable confirm : dialog -> bool.

Lemma deletePost_confirmed s index post :
  js_index (filteredHistory s) index = Some post ->
  confirm (DeleteDialog (title (heap s post))) = true ->
  deletePost JSON_stringify confirm index s
  = (Returned tt, deleted JSON_stringify post s).
Proof.
  intros Hi Hc. unfold deletePost, bind, get. now rewrite Hi, Hc.
Qed.

Lemma deletePost_declined s index post :
  js_index (filteredHistory s) index = Some post ->
  confirm (DeleteDialog (title (heap s post))) = false ->
  deletePost JSON_stringify confirm index s
  = (Returned tt, show (DeleteDialog (title (heap s post))) s).
Proof.
  intros Hi Hc. unfold deletePost, bind, get. now rewrite Hi, Hc.
Qed.

Lemma deletePost_out_of_range s index :
  js_index (filteredHistory s) index = None ->
  deletePost JSON_stringify confirm index s = (Thrown TypeError, s).
Proof. intros Hi. unfold deletePost, bind, get. now rewrite Hi. Qed.

End Delete.

Lemma viewPost_out_of_range s index :
  js_index (filteredHistory s) index = None ->
  viewPost index s = (Thrown TypeError, s).
Proof. intros Hi. unfold viewPost, bind, get. now rewrite Hi. Qed.

Lemma viewPost_in_range s index post :
  js_index (filteredHistory s) index = Some post ->
  completion (viewPost index) s = Returned tt.
Proof. intros Hi. unfold completion, viewPost, bind, get. now rewrite Hi. Qed.

(** *** The states the component reaches *)

(** [loadHistory] always returns: with a history of freshly created
    objects, or, when the stored text parses to a value that cannot be
    iterated, with the state as it was. *)
Lemma loadHistory_cases JSON_parse now (s : HistoryComponent) :
  (exists vs,
     loadHistory JSON_parse now s
     = (Returned true,
        set_history (seq (brk s) (length vs)) (exec (allocate vs) s))) \/
  (loadHistory JSON_parse now s = (Returned false, s) /\
   exists text, localStorage s !! "postHistory" = Some text /\
                text <> "" /\ JSON_parse text = Some NotIterable).
Proof.
  unfold loadHistory, try_catch, bind, get, getPlaceholderHistory, parse,
    assign_history.
  destruct (localStorage s !! "postHistory") as [text|] eqn:Hs.
  - destruct text as [|c text]; cbn [truthy].
    + left. now exists (map (placeholder now) (seq 0 10)).
    + destruct (JSON_parse (String c text)) as [[vs|]|] eqn:Hp.
      * left. now exists vs.
      * right. split; [reflexivity|]. exists (String c text).
        repeat split; [discriminate | exact Hp].
      * left. now exists (map (placeholder now) (seq 0 10)).
  - left. now exists (map (placeholder now) (seq 0 10)).
Qed.

Lemma consistent_ngOnInit JSON_parse now h b ls :
  consistent (exec (ngOnInit JSON_parse now) (create h b ls)).
Proof.
  unfold exec, ngOnInit, bind.
  destruct (loadHistory_cases JSON_parse now (create h b ls))
    as [[vs ->] | [-> _]]; cbn [snd modify throw].
  - split; [apply NoDup_seq | reflexivity].
  - split; [apply NoDup_nil_2 | reflexivity].
Qed.

Lemma applyFilter_restores s :
  NoDup (history s) -> consistent (exec applyFilter s).
Proof. intros Hnd. split; [exact Hnd | exact (applyFilter_sublist s)]. Qed.

Lemma consistent_applyFilter s :
  consistent s -> consistent (exec applyFilter s).
Proof. intros (Hnd & _). now apply applyFilter_restores. Qed.

Lemma consistent_viewPost index s :
  consistent s -> consistent (exec (viewPost index) s).
Proof.
  intros Hc. unfold exec, viewPost, bind, get.
  now destruct (js_index (filteredHistory s) index).
Qed.

Lemma consistent_deletePost JSON_stringify confirm index s :
  consistent s ->
  consistent (exec (deletePost JSON_stringify confirm index) s).
Proof.
  intros Hc. unfold exec.
  destruct (js_index (filteredHistory s) index) as [post|] eqn:Hi.
  - destruct (confirm (DeleteDialog (title (heap s post)))) eqn:Hy.
    + rewrite (deletePost_confirmed _ _ s index post Hi Hy). cbn [snd].
      unfold deleted. destruct Hc as (Hnd & Hsub).
      apply applyFilter_restores; cbn [history setItem set_history].
      eapply sublist_NoDup; [exact Hnd | apply sublist_delete].
    + now rewrite (deletePost_declined _ _ s index post Hi Hy).
  - now rewrite (deletePost_out_of_range _ _ s index Hi).
Qed.

Lemma reachable_consistent JSON_parse JSON_stringify now s :
  reachable JSON_parse JSON_stringify now s -> consistent s.
Proof.
  induction 1 as [h b ls _ | s e _ IH].
  - apply consistent_ngOnInit.
  - destruct e; cbn [perform].
    + exact IH.
    + now apply consistent_applyFilter.
    + now apply consistent_viewPost.
    + now apply consistent_deletePost.
Qed.

(** C3: in a consistent state (the posts of [history] pairwise distinct,
    the filtered view a sub-list of it, as in every state the component
    reaches), for an index within the filtered
    view and a confirmed deletion, [deletePost] returns normally; the post
    [post] shown at that index sits at one position [i] of [history], the
    new history is the old one without position [i] (every other entry
    kept, in order), its length is one less, local storage holds under
    'postHistory' the encoding of the whole new list, and [post] is in
    neither the new history nor the new filtered view; when the filtered
    view was the one of the current search term, the new view is the old one
    without the entry at [index]. *)
Theorem deletePost_removes_that_post
    (JSON_stringify : list PostHistory -> string) (confirm : dialog -> bool)
    (s : HistoryComponent) (index : Z) (post : ref) :
  consistent s ->
  js_index (filteredHistory s) index = Some post ->
  confirm (DeleteDialog (title (heap s post))) = true ->
  let s' := exec (deletePost JSON_stringify confirm index) s in
  completion (deletePost JSON_stringify confirm index) s = Returned tt /\
  (exists i, history s !! i = Some post /\
             history s' = delete i (history s) /\
             history s' = (take i (history s) ++ drop (S i) (history s))%list) /\
  S (length (history s')) = length (history s) /\
  (post ∉ history s') /\
  (post ∉ filteredHistory s') /\
  heap s' = heap s /\
  shown s' = (shown s ++ [DeleteDialog (title (heap s post))])%list /\
  localStorage s'
  = <["postHistory" := JSON_stringify (map (heap s) (history s'))]>
      (localStorage s) /\
  consistent s' /\
  (filteredHistory s = filteredHistory (exec applyFilter s) ->
   filteredHistory s' = delete (Z.to_nat index) (filteredHistory s)).
Proof.
  intros Hc Hi Hy s'. subst s'.
  pose proof (consistent_deletePost JSON_stringify confirm index s Hc) as Hc'.
  assert (He : exec (deletePost JSON_stringify confirm index) s
               = deleted JSON_stringify post s)
    by (unfold exec; now rewrite (deletePost_confirmed _ _ s index post Hi Hy)).
  assert (Hr : completion (deletePost JSON_stringify confirm index) s
               = Returned tt)
    by (unfold completion;
        now rewrite (deletePost_confirmed _ _ s index post Hi Hy)).
  rewrite He in *. rewrite Hr. clear He Hr.
  destruct Hc as (Hnd & Hsub).
  apply js_index_Some in Hi as [Hpos Hk].
  assert (Hin : post ∈ history s).
  { eapply elem_of_sublist; [|exact Hsub]. eapply list_elem_of_lookup_2, Hk. }
  destruct (indexOf_elem (history s) post Hin) as [i [Hio Hl]].
  assert (Hh : history (deleted JSON_stringify post s) = delete i (history s)).
  { unfold deleted. cbn [history exec snd applyFilter modify set_filteredHistory
                         setItem set_history].
    now rewrite Hio, splice1_at. }
  assert (Hout : post ∉ delete i (history s))
    by now apply NoDup_delete_absent.
  split; [reflexivity|].
  split; [exists i; rewrite Hh; split; [done | split; [done | apply delete_take_drop]]|].
  split; [rewrite Hh, length_delete by (now rewrite Hl); cbn;
          apply lookup_lt_Some in Hl; lia|].
  split; [now rewrite Hh|].
  split.
  { intros Hf. apply Hout. rewrite <- Hh.
    destruct Hc' as (_ & Hsub').
    eapply elem_of_sublist; [exact Hf | exact Hsub']. }
  split; [reflexivity|]. split; [reflexivity|].
  split.
  { unfold deleted at 1.
    cbn [localStorage exec snd applyFilter modify set_filteredHistory setItem].
    rewrite Hh, Hio, splice1_at. reflexivity. }
  split; [exact Hc'|].
  intros Hsync. rewrite Hsync in Hk. rewrite Hsync.
  unfold deleted.
  set (s2 := setItem _ _ _).
  destruct (string_dec (trim (toLowerCase (searchQuery s))) "") as [Hq|Hq].
  - rewrite (applyFilter_empty s Hq) in Hk |- *.
    rewrite (applyFilter_empty s2 Hq). subst s2.
    cbn [history setItem set_history].
    rewrite Hio, splice1_at. f_equal.
    eapply NoDup_lookup; [exact Hnd | exact Hl | exact Hk].
  - rewrite (applyFilter_nonempty s Hq) in Hk |- *.
    rewrite (applyFilter_nonempty s2 Hq). subst s2.
    cbn [history heap searchQuery setItem set_history].
    rewrite Hio, splice1_at.
    now apply (filter_delete _ (history s) i (Z.to_nat index) post).
Qed.

Lemma deletePost_removes_that_post_witness :
  S (length (history (exec (deletePost Samples.encode_titles Samples.yes 3)
                           Samples.mounted))) = 10%nat /\
  (3%nat ∉ history (exec (deletePost Samples.encode_titles Samples.yes 3)
                         Samples.mounted)).
Proof.
  pose proof (deletePost_removes_that_post
                Samples.encode_titles Samples.yes Samples.mounted 3 3%nat) as H.
  destruct H as (_ & _ & Hlen & Hout & _).
  - apply consistent_ngOnInit.
  - reflexivity.
  - reflexivity.
  - split; [exact Hlen | exact Hout].
Defined.

Example mounted_delete_fourth :
  history (exec (deletePost Samples.encode_titles Samples.yes 3) Samples.mounted)
  = [0; 1; 2; 4; 5; 6; 7; 8; 9]%nat.
Proof. reflexivity. Qed.

(** C9, as the code has it: for an index outside the filtered view (below
    zero, or at or beyond its length) [deletePost] throws a TypeError when it
    reads the title of the missing post for the confirmation text; no
    dialog is shown, and the history, the filtered view and local storage
    stay as they were. *)
Theorem deletePost_outside_view_throws
    (JSON_stringify : list PostHistory -> string) (confirm : dialog -> bool)
    (s : HistoryComponent) (index : Z) :
  (index < 0 \/ Z.of_nat (length (filteredHistory s)) <= index)%Z ->
  completion (deletePost JSON_stringify confirm index) s = Thrown TypeError /\
  exec (deletePost JSON_stringify confirm index) s = s.
Proof.
  intros H. apply js_index_None in H. unfold completion, exec.
  now rewrite (deletePost_out_of_range JSON_stringify confirm s index H).
Qed.

Lemma deletePost_outside_view_throws_witness :
  completion (deletePost Samples.encode_titles Samples.yes 10) Samples.mounted
  = Thrown TypeError /\
  exec (deletePost Samples.encode_titles Samples.yes 10) Samples.mounted
  = Samples.mounted.
Proof.
  apply (deletePost_outside_view_throws
           Samples.encode_titles Samples.yes Samples.mounted 10).
  right. vm_compute. discriminate.
Defined.

(** C9 as worded fails: on the ten posts of [Samples.mounted], deleting at
    index 10 with every dialog confirmed throws and removes nothing; the
    last entry is still there. *)
Lemma deletePost_outside_view_keeps_last :
  history Samples.mounted <> [] /\
  js_index (filteredHistory Samples.mounted) 10 = None /\
  completion (deletePost Samples.encode_titles Samples.yes 10) Samples.mounted
  = Thrown TypeError /\
  history (exec (deletePost Samples.encode_titles Samples.yes 10) Samples.mounted)
  = history Samples.mounted /\
  history (exec (deletePost Samples.encode_titles Samples.yes 10) Samples.mounted)
  <> removelast (history Samples.mounted).
Proof. repeat split; discriminate. Qed.

End HistoryFacts.
(** ** The discover component *)

Module DiscoverFacts.
Import Discover ArrayFacts.

Example feed_likes :
  map (fun r => likes (heap Samples.feed r)) (discoverPosts Samples.feed)
  = [48; 122; 196; 270; 344; 418; 492; 566; 640; 714]%Z.
Proof. reflexivity. Qed.

Example feed_authors :
  map (fun r => author (heap Samples.feed r)) (take 3 (discoverPosts Samples.feed))
  = ["User 12"; "User 36"; "User 10"].
Proof. reflexivity. Qed.

Example feed_images :
  image (heap Samples.feed 5%nat)
  = Some "https://images.unsplash.com/photo-1522205408450-add114ad53fe".
Proof. reflexivity. Qed.

Lemma generateMockData_distinct random (s : DiscoverComponent) :
  NoDup (discoverPosts (exec (generateMockData random) s)) /\
  length (discoverPosts (exec (generateMockData random) s)) = 10%nat.
Proof. split; [apply NoDup_seq | reflexivity]. Qed.

Lemma likePost_in_range (s : DiscoverComponent) (index : Z) (post : ref) :
  js_index (discoverPosts s) index = Some post ->
  likePost index s
  = (Returned tt,
     {| discoverPosts := discoverPosts s;
        heap := store (heap s) post (incr_likes (heap s post));
        brk := brk s; shown := shown s |}).
Proof. intros Hi. unfold likePost, bind, get. now rewrite Hi. Qed.

Lemma likePost_out_of_range (s : DiscoverComponent) (index : Z) :
  js_index (discoverPosts s) index = None ->
  likePost index s = (Thrown TypeError, s).
Proof. intros Hi. unfold likePost, bind, get. now rewrite Hi. Qed.

Lemma feed_viewPost_in_range (s : DiscoverComponent) (index : Z) (post : ref) :
  js_index (discoverPosts s) index = Some post ->
  completion (viewPost index) s = Returned tt.
Proof. intros Hi. unfold completion, viewPost, bind, get. now rewrite Hi. Qed.

Lemma feed_viewPost_out_of_range (s : DiscoverComponent) (index : Z) :
  js_index (discoverPosts s) index = None ->
  viewPost index s = (Thrown TypeError, s).
Proof. intros Hi. unfold viewPost, bind, get. now rewrite Hi. Qed.

Lemma store_same {A} (h : ref -> A) (r : ref) (v : A) : store h r v r = v.
Proof. unfold store. now rewrite Nat.eqb_refl. Qed.

Lemma store_other {A} (h : ref -> A) (r r' : ref) (v : A) :
  r' <> r -> store h r v r' = h r'.
Proof. intros Hne. unfold store. now destruct (Nat.eqb_spec r' r). Qed.

(** C6: for a list of pairwise distinct posts and an index within its
    bounds, [likePost] returns normally; the post at that index has its
    like counter one higher and its other fields as before; the post at
    every other index, and every other object, is unchanged; the list
    itself and the dialogs are untouched. *)
Theorem likePost_increments_only_that_post
    (s : DiscoverComponent) (index : Z) (post : ref) :
  NoDup (discoverPosts s) ->
  js_index (discoverPosts s) index = Some post ->
  let s' := exec (likePost index) s in
  completion (likePost index) s = Returned tt /\
  discoverPosts s' = discoverPosts s /\
  likes (heap s' post) = (likes (heap s post) + 1)%Z /\
  title (heap s' post) = title (heap s post) /\
  description (heap s' post) = description (heap s post) /\
  author (heap s' post) = author (heap s post) /\
  tags (heap s' post) = tags (heap s post) /\
  image (heap s' post) = image (heap s post) /\
  (forall j other, j <> index ->
                   js_index (discoverPosts s) j = Some other ->
                   heap s' other = heap s other) /\
  (forall r, r <> post -> heap s' r = heap s r) /\
  shown s' = shown s.
Proof.
  intros Hnd Hi s'. subst s'. unfold exec, completion.
  rewrite (likePost_in_range s index post Hi). cbn [fst snd heap discoverPosts shown].
  rewrite store_same.
  repeat (split; [reflexivity|]).
  split; [|split; [|reflexivity]].
  - intros j other Hne Hj. apply store_other. intros ->.
    apply js_index_Some in Hi as [Hi0 Hi], Hj as [Hj0 Hj].
    pose proof (NoDup_lookup _ _ _ _ Hnd Hi Hj). lia.
  - intros r Hne. now apply store_other.
Qed.

Lemma likePost_increments_only_that_post_witness :
  likes (heap (exec (likePost 2) Samples.feed) 2%nat) = 197%Z /\
  likes (heap (exec (likePost 2) Samples.feed) 3%nat) = 270%Z.
Proof.
  pose proof (likePost_increments_only_that_post Samples.feed 2 2%nat) as H.
  destruct H as (_ & _ & Hl & _ & _ & _ & _ & _ & Hothers & _).
  - apply NoDup_seq.
  - reflexivity.
  - split; [exact Hl|].
    rewrite (Hothers 3%Z 3%nat); [reflexivity | discriminate | reflexivity].
Defined.

End DiscoverFacts.

(** ** The card carousel of the create component *)

Module CreateFacts.
Import Create.

Example initial_wraps_back :
  currentCardIndex (prevCard initial) = 2%Z /\
  currentCardIndex (nextCard initial) = 1%Z.
Proof. split; reflexivity. Qed.

Example carousel_wraps :
  currentCardIndex (nextCard Samples.carousel) = 0%Z /\
  currentCardIndex (prevCard (nextCard Samples.carousel)) = 2%Z.
Proof. split; reflexivity. Qed.

Lemma rem_succ (i n : Z) :
  (0 <= i < n)%Z ->
  Z.rem (i + 1) n = (if (i + 1 =? n) then 0 else i + 1)%Z.
Proof.
  intros H. destruct (Z.eqb_spec (i + 1) n) as [->|Hne].
  - apply Z.rem_same. lia.
  - apply Z.rem_small. lia.
Qed.

Lemma rem_pred (i n : Z) :
  (0 <= i < n)%Z ->
  Z.rem (i - 1 + n) n = (if (i =? 0) then n - 1 else i - 1)%Z.
Proof.
  intros H. destruct (Z.eqb_spec i 0) as [->|Hne].
  - rewrite Z.rem_small by lia. lia.
  - rewrite Z.rem_mod_nonneg by lia.
    replace (i - 1 + n)%Z with (i - 1 + 1 * n)%Z by lia.
    rewrite Z.mod_add by lia. apply Z.mod_small. lia.
Qed.

(** C10: when [currentCardIndex] is in [0, previewCards.length), it is
    still there after [nextCard] and after [prevCard], and [nextCard]
    followed by [prevCard], as well as [prevCard] followed by [nextCard],
    brings it back to its value; the cards are untouched. *)
Theorem card_index_in_range_and_restored (c : CreateComponent) :
  (0 <= currentCardIndex c < Z.of_nat (length (previewCards c)))%Z ->
  (0 <= currentCardIndex (nextCard c) < Z.of_nat (length (previewCards c)))%Z /\
  (0 <= currentCardIndex (prevCard c) < Z.of_nat (length (previewCards c)))%Z /\
  currentCardIndex (prevCard (nextCard c)) = currentCardIndex c /\
  currentCardIndex (nextCard (prevCard c)) = currentCardIndex c /\
  previewCards (nextCard c) = previewCards c /\
  previewCards (prevCard c) = previewCards c.
Proof.
  intros H. unfold nextCard, prevCard.
  cbn [currentCardIndex previewCards set_currentCardIndex].
  set (n := Z.of_nat (length (previewCards c))) in *.
  set (i := currentCardIndex c) in *.
  assert (Hn : (0 <= Z.rem (i + 1) n < n)%Z)
    by (rewrite rem_succ by done; destruct (Z.eqb_spec (i + 1) n); lia).
  assert (Hp : (0 <= Z.rem (i - 1 + n) n < n)%Z)
    by (rewrite rem_pred by done; destruct (Z.eqb_spec i 0); lia).
  split; [exact Hn|]. split; [exact Hp|].
  split; [|split; [|split; reflexivity]].
  - rewrite rem_pred by done. rewrite rem_succ by done.
    destruct (Z.eqb_spec (i + 1) n); [rewrite Z.eqb_refl; lia|].
    destruct (Z.eqb_spec (i + 1) 0); lia.
  - rewrite rem_succ by done. rewrite rem_pred by done.
    destruct (Z.eqb_spec i 0) as [->|].
    + replace (n - 1 + 1)%Z with n by lia. now rewrite Z.eqb_refl.
    + destruct (Z.eqb_spec (i - 1 + 1) n); lia.
Qed.

Lemma card_index_in_range_and_restored_witness :
  currentCardIndex (prevCard (nextCard Samples.carousel)) = 2%Z.
Proof.
  apply (card_index_in_range_and_restored Samples.carousel).
  vm_compute. split; [discriminate | reflexivity].
Defined.

End CreateFacts.

(** ** The dashboard component *)

Module DashboardFacts.
Import Dashboard ArrayFacts.

Example bare_page_locked :
  body_overflow Samples.bare_page = Some "hidden" /\
  modalOpen Samples.bare_page = false.
Proof. split; reflexivity. Qed.

Example page_offsets :
  sectionOffsets (exec (run RecalculateOffsets 0 0) Samples.page)
  = [ {| id := "hero"; top := 0 |}; {| id := "create"; top := 800 |};
      {| id := "history"; top := 0 |}; {| id := "discover"; top := 0 |} ].
Proof. reflexivity. Qed.

Example page_indicator :
  indicator_style Samples.page !! "background" = Some (Text "#e18e1c") /\
  indicator_style Samples.page !! "top" = Some (CentredOn 10%nat 2%nat 1%nat).
Proof. split; reflexivity. Qed.

Example page_set_active_outside :
  completion (setActive 7) Samples.page = Thrown TypeError /\
  activeIndex (exec (setActive 7) Samples.page) = 7%Z.
Proof. split; reflexivity. Qed.

(** *** What the operations leave alone *)

Section Frames.

Context {T : Type} (view : DashboardComponent -> T).

Lemma preserves_ret {A} (a : A) : preserves view (ret a).
Proof. intros s. reflexivity. Qed.

Lemma preserves_throw {A} (e : JSError) : preserves view (@throw _ A e).
Proof. intros s. reflexivity. Qed.

Lemma preserves_get : preserves view get.
Proof. intros s. reflexivity. Qed.

Lemma preserves_modify (f : DashboardComponent -> DashboardComponent) :
  (forall s, view (f s) = view s) -> preserves view (modify f).
Proof. intros H s. apply H. Qed.

Lemma preserves_bind {A B} (m : Js DashboardComponent A)
    (k : A -> Js DashboardComponent B) :
  preserves view m -> (forall a, preserves view (k a)) ->
  preserves view (bind m k).
Proof.
  intros Hm Hk s. unfold exec, bind. specialize (Hm s). unfold exec in Hm.
  destruct (m s) as [[a|e] s1]; cbn [snd] in *.
  - rewrite <- Hm. apply Hk.
  - exact Hm.
Qed.

End Frames.

Create HintDb frames.

Ltac frame :=
  repeat first
    [ solve [auto with frames nocore]
    | apply preserves_ret | apply preserves_throw | apply preserves_get
    | apply preserves_modify; intros; reflexivity
    | apply preserves_bind; [|intros] ].

Lemma updateIndicatorPosition_lock : preserves lock_view updateIndicatorPosition.
Proof.
  unfold updateIndicatorPosition. apply preserves_bind; [apply preserves_get|].
  intros s. repeat case_match; frame.
Qed.

Lemma updateIndicatorPosition_modals : preserves modal_view updateIndicatorPosition.
Proof.
  unfold updateIndicatorPosition. apply preserves_bind; [apply preserves_get|].
  intros s. repeat case_match; frame.
Qed.

#[local] Hint Resolve updateIndicatorPosition_lock updateIndicatorPosition_modals
  : frames.

Lemma setActive_lock index : preserves lock_view (setActive index).
Proof. unfold setActive. frame. Qed.

#[local] Hint Resolve setActive_lock : frames.

Lemma navigateToSection_lock sectionId index :
  preserves lock_view (navigateToSection sectionId index).
Proof.
  unfold navigateToSection, toggleProfile.
  repeat case_match; frame. repeat case_match; frame.
Qed.

Lemma handleScroll_lock scrollY innerHeight :
  preserves lock_view (handleScroll scrollY innerHeight).
Proof.
  unfold handleScroll. apply preserves_bind; [apply preserves_get|].
  intros s. repeat case_match; frame.
Qed.

#[local] Hint Resolve handleScroll_lock : frames.

Lemma run_lock cb scrollY innerHeight :
  preserves lock_view (run cb scrollY innerHeight).
Proof. destruct cb; cbn [run]; unfold calculateSectionOffsets; frame. Qed.

Lemma onWindowScroll_lock : preserves lock_view onWindowScroll.
Proof.
  unfold onWindowScroll. apply preserves_bind; [apply preserves_get|].
  intros s. repeat case_match; frame.
Qed.

(** *** The scroll lock *)

Lemma lock_follows_login_view s s' :
  lock_view s' = lock_view s -> lock_follows_login s -> lock_follows_login s'.
Proof.
  unfold lock_view, lock_follows_login. intros [= -> ->]. auto.
Qed.

Lemma updateScrollLock_spec s :
  completion updateScrollLock s = Returned tt /\
  isLoggedIn (exec updateScrollLock s) = isLoggedIn s /\
  modal_view (exec updateScrollLock s) = modal_view s /\
  lock_follows_login (exec updateScrollLock s).
Proof.
  unfold lock_follows_login, exec, completion, updateScrollLock, bind, get.
  destruct (isLoggedIn s) eqn:E; cbn; rewrite E; auto.
Qed.

Lemma ngAfterViewInit_returns sections ov st navTabs navIndicator navBox :
  completion (ngAfterViewInit navTabs navIndicator navBox)
             (create sections ov st) = Returned tt.
Proof. destruct navIndicator, navTabs, navBox; reflexivity. Qed.

Lemma ngAfterViewInit_lock sections ov st navTabs navIndicator navBox :
  lock_follows_login
    (exec (ngAfterViewInit navTabs navIndicator navBox) (create sections ov st)).
Proof. destruct navIndicator, navTabs, navBox; reflexivity. Qed.

Lemma closeLogin_spec s :
  completion closeLogin s = Returned tt /\
  showLogin (exec closeLogin s) = false /\
  isLoggedIn (exec closeLogin s) = true /\
  body_overflow (exec closeLogin s) = None.
Proof. repeat split. Qed.

Lemma closeSignup_spec s :
  completion closeSignup s = Returned tt /\
  showSignup (exec closeSignup s) = false /\
  isLoggedIn (exec closeSignup s) = true /\
  body_overflow (exec closeSignup s) = None.
Proof. repeat split. Qed.

Lemma handleLogout_spec s :
  completion handleLogout s = Returned tt /\
  showProfile (exec handleLogout s) = false /\
  isLoggedIn (exec handleLogout s) = false /\
  body_overflow (exec handleLogout s) = Some "hidden".
Proof. repeat split. Qed.

Lemma perform_lock (e : event) (s : DashboardComponent) :
  lock_follows_login s -> lock_follows_login (exec (perform e) s).
Proof.
  intros H.
  assert (Hview : forall m : Js DashboardComponent unit,
             preserves lock_view m -> lock_follows_login (exec m s))
    by (intros m Hm; apply (lock_follows_login_view s); [apply Hm | exact H]).
  destruct e; cbn [perform].
  - apply Hview, navigateToSection_lock.
  - apply Hview, setActive_lock.
  - apply Hview. unfold toggleProfile. frame.
  - apply Hview. unfold closeProfile. frame.
  - apply Hview. unfold toggleLogin. frame.
  - apply closeLogin_spec.
  - apply Hview. unfold toggleSignup. frame.
  - apply closeSignup_spec.
  - apply handleLogout_spec.
  - apply Hview, onWindowScroll_lock.
  - apply Hview. unfold onResize, calculateSectionOffsets. frame.
  - apply Hview, run_lock.
  - apply Hview. frame.
Qed.

Lemma reachable_lock (s : DashboardComponent) :
  reachable s -> lock_follows_login s.
Proof.
  induction 1 as [sections ov st navTabs navIndicator navBox | s e _ IH].
  - apply ngAfterViewInit_lock.
  - now apply perform_lock.
Qed.

(** C4, as the code has it: in every state the mounted dashboard reaches,
    the body's overflow style is 'hidden' exactly when nobody is logged
    in, and is unset exactly when somebody is; the lock follows the login
    flag, whatever modals are open: [toggleProfile], [toggleLogin],
    [toggleSignup] and [closeProfile] return normally and change neither
    the overflow style nor the login flag. *)
Theorem scroll_locked_until_logged_in (s : DashboardComponent) :
  reachable s ->
  (body_overflow s = Some "hidden" <-> isLoggedIn s = false) /\
  (body_overflow s = None <-> isLoggedIn s = true) /\
  scrollLocked s = negb (isLoggedIn s) /\
  (completion toggleProfile s = Returned tt /\
   body_overflow (exec toggleProfile s) = body_overflow s /\
   isLoggedIn (exec toggleProfile s) = isLoggedIn s) /\
  (completion toggleLogin s = Returned tt /\
   body_overflow (exec toggleLogin s) = body_overflow s /\
   isLoggedIn (exec toggleLogin s) = isLoggedIn s) /\
  (completion toggleSignup s = Returned tt /\
   body_overflow (exec toggleSignup s) = body_overflow s /\
   isLoggedIn (exec toggleSignup s) = isLoggedIn s) /\
  (completion closeProfile s = Returned tt /\
   body_overflow (exec closeProfile s) = body_overflow s /\
   isLoggedIn (exec closeProfile s) = isLoggedIn s).
Proof.
  intros H. apply reachable_lock in H. unfold lock_follows_login in H.
  assert (Hlock : (body_overflow s = Some "hidden" <-> isLoggedIn s = false) /\
                  (body_overflow s = None <-> isLoggedIn s = true) /\
                  scrollLocked s = negb (isLoggedIn s)).
  { unfold scrollLocked. rewrite H.
    destruct (isLoggedIn s); repeat split; (reflexivity || discriminate). }
  destruct Hlock as (H1 & H2 & H3).
  split; [exact H1|]. split; [exact H2|]. split; [exact H3|].
  repeat split.
Qed.

Lemma scroll_locked_until_logged_in_witness :
  body_overflow Samples.page = Some "hidden" <-> isLoggedIn Samples.page = false.
Proof.
  apply (scroll_locked_until_logged_in Samples.page).
  apply reach_mounted.
Defined.

(** C4 as worded fails both ways: the freshly mounted page has no modal
    open and its scroll is locked; after the login modal is closed and the
    profile modal opened, a modal is open and the scroll is free. *)
Lemma scroll_lock_ignores_modals :
  (reachable Samples.bare_page /\
   modalOpen Samples.bare_page = false /\
   body_overflow Samples.bare_page = Some "hidden") /\
  (reachable (exec toggleProfile (exec closeLogin Samples.bare_page)) /\
   modalOpen (exec toggleProfile (exec closeLogin Samples.bare_page)) = true /\
   body_overflow (exec toggleProfile (exec closeLogin Samples.bare_page)) = None).
Proof.
  split; (split; [|split; reflexivity]).
  - apply reach_mounted.
  - apply (reach_event _ ToggleProfile), (reach_event _ CloseLogin), reach_mounted.
Qed.

(** *** The modal flags *)

Lemma negb_twice (b : bool) : negb (negb b) = b.
Proof. now destruct b. Qed.

(** C7: from every state, each of [toggleProfile], [toggleLogin] and
    [toggleSignup] returns normally, and applying it twice gives back the
    starting state, in particular the starting value of its flag. *)
Theorem toggle_twice_restores (s : DashboardComponent) :
  (completion toggleProfile s = Returned tt /\
   showProfile (exec toggleProfile (exec toggleProfile s)) = showProfile s /\
   exec toggleProfile (exec toggleProfile s) = s) /\
  (completion toggleLogin s = Returned tt /\
   showLogin (exec toggleLogin (exec toggleLogin s)) = showLogin s /\
   exec toggleLogin (exec toggleLogin s) = s) /\
  (completion toggleSignup s = Returned tt /\
   showSignup (exec toggleSignup (exec toggleSignup s)) = showSignup s /\
   exec toggleSignup (exec toggleSignup s) = s).
Proof.
  destruct s. unfold exec, toggleProfile, toggleLogin, toggleSignup, modify.
  cbn. rewrite !negb_twice. repeat split.
Qed.

End DashboardFacts.

(** ** Closing the login and signup modals *)

Module AuthFacts.

(** C8: from every state of the dashboard, [closeLogin] and [closeSignup]
    return normally, lower their modal flag, set [isLoggedIn] and remove
    the body's overflow style, so that the page scrolls; they take no
    argument and read no credential.  In the modal components, [onLogin]
    and [onSignup] return normally whatever the form holds, write one line
    on the console, and leave the form fields and the [close] emitter as
    they were. *)
Theorem closing_a_modal_logs_in
    (s : Dashboard.DashboardComponent)
    (l : Login.LoginComponent) (u : Signup.SignupComponent) :
  (completion Dashboard.closeLogin s = Returned tt /\
   Dashboard.showLogin (exec Dashboard.closeLogin s) = false /\
   Dashboard.isLoggedIn (exec Dashboard.closeLogin s) = true /\
   Dashboard.body_overflow (exec Dashboard.closeLogin s) = None /\
   Dashboard.scrollLocked (exec Dashboard.closeLogin s) = false) /\
  (completion Dashboard.closeSignup s = Returned tt /\
   Dashboard.showSignup (exec Dashboard.closeSignup s) = false /\
   Dashboard.isLoggedIn (exec Dashboard.closeSignup s) = true /\
   Dashboard.body_overflow (exec Dashboard.closeSignup s) = None /\
   Dashboard.scrollLocked (exec Dashboard.closeSignup s) = false) /\
  (completion Login.onLogin l = Returned tt /\
   Login.email (exec Login.onLogin l) = Login.email l /\
   Login.password (exec Login.onLogin l) = Login.password l /\
   Login.closed (exec Login.onLogin l) = Login.closed l /\
   Login.console (exec Login.onLogin l)
   = (Login.console l
      ++ [["Login attempted:"; Login.email l; Login.password l]])%list) /\
  (completion Signup.onSignup u = Returned tt /\
   Signup.name (exec Signup.onSignup u) = Signup.name u /\
   Signup.email (exec Signup.onSignup u) = Signup.email u /\
   Signup.password (exec Signup.onSignup u) = Signup.password u /\
   Signup.closed (exec Signup.onSignup u) = Signup.closed u /\
   Signup.console (exec Signup.onSignup u)
   = (Signup.console u
      ++ [["Signup attempted:"; Signup.name u; Signup.email u;
           Signup.password u]])%list).
Proof. repeat split. Qed.

Example logged_out_then_closed :
  Dashboard.isLoggedIn
    (exec Dashboard.closeLogin (exec Dashboard.handleLogout Samples.page)) = true.
Proof. reflexivity. Qed.

End AuthFacts.

(** ** Guards *)

Module GuardFacts.
Import ArrayFacts.

Lemma updateIndicatorPosition_guard (d : Dashboard.DashboardComponent) :
  Dashboard.indicator d = None \/ Dashboard.tabs d = [] \/
  Dashboard.navContainer d = None ->
  Dashboard.updateIndicatorPosition d = (Returned tt, d).
Proof.
  unfold Dashboard.updateIndicatorPosition, bind, get.
  intros [H | [H | H]]; rewrite H.
  - reflexivity.
  - now destruct (Dashboard.indicator d).
  - now destruct (Dashboard.indicator d), (Dashboard.tabs d).
Qed.

(** C5, as the code has it: [updateIndicatorPosition] returns at once,
    leaving the state as it is, when the indicator, the nav container or
    every tab is missing.  The operations that take an index have no
    guard: [viewPost] and [deletePost] of the history component and
    [likePost] and [viewPost] of the discover component return normally
    for an index within the bounds of their list, and throw a TypeError,
    leaving the state as it is, for an index outside. *)
Theorem guards_cover_missing_elements
    (d : Dashboard.DashboardComponent)
    (h : History.HistoryComponent) (f : Discover.DiscoverComponent)
    (JSON_stringify : list History.PostHistory -> string)
    (confirm : History.dialog -> bool) (index : Z) :
  (Dashboard.indicator d = None \/ Dashboard.tabs d = [] \/
   Dashboard.navContainer d = None ->
   Dashboard.updateIndicatorPosition d = (Returned tt, d)) /\
  completion (History.viewPost index) h
  = match js_index (History.filteredHistory h) index with
    | Some _ => Returned tt
    | None => Thrown TypeError
    end /\
  completion (History.deletePost JSON_stringify confirm index) h
  = match js_index (History.filteredHistory h) index with
    | Some _ => Returned tt
    | None => Thrown TypeError
    end /\
  completion (Discover.likePost index) f
  = match js_index (Discover.discoverPosts f) index with
    | Some _ => Returned tt
    | None => Thrown TypeError
    end /\
  completion (Discover.viewPost index) f
  = match js_index (Discover.discoverPosts f) index with
    | Some _ => Returned tt
    | None => Thrown TypeError
    end /\
  (js_index (History.filteredHistory h) index = None ->
   exec (History.viewPost index) h = h /\
   exec (History.deletePost JSON_stringify confirm index) h = h) /\
  (js_index (Discover.discoverPosts f) index = None ->
   exec (Discover.likePost index) f = f /\
   exec (Discover.viewPost index) f = f).
Proof.
  split; [apply updateIndicatorPosition_guard|].
  unfold completion, exec.
  destruct (js_index (History.filteredHistory h) index) as [post|] eqn:Hh;
    destruct (js_index (Discover.discoverPosts f) index) as [liked|] eqn:Hf.
  all: try rewrite (HistoryFacts.viewPost_out_of_range h index Hh).
  all: try rewrite (HistoryFacts.deletePost_out_of_range _ _ h index Hh).
  all: try rewrite (DiscoverFacts.likePost_out_of_range f index Hf).
  all: try rewrite (DiscoverFacts.feed_viewPost_out_of_range f index Hf).
  all: try rewrite (DiscoverFacts.likePost_in_range f index liked Hf).
  all: try (pose proof (DiscoverFacts.feed_viewPost_in_range f index liked Hf) as Hv;
            unfold completion in Hv; rewrite Hv).
  all: try (pose proof (HistoryFacts.viewPost_in_range h index post Hh) as Hv';
            unfold completion in Hv'; rewrite Hv').
  all: try (destruct (confirm (History.DeleteDialog
                                 (History.title (History.heap h post)))) eqn:Hy;
            [rewrite (HistoryFacts.deletePost_confirmed _ _ h index post Hh Hy)
            |rewrite (HistoryFacts.deletePost_declined _ _ h index post Hh Hy)]).
  all: cbn [fst snd]; repeat split; intros; discriminate.
Qed.

Lemma guards_cover_missing_elements_witness :
  Dashboard.updateIndicatorPosition Samples.bare_page
  = (Returned tt, Samples.bare_page) /\
  exec (Discover.likePost 0) Samples.unmounted_feed = Samples.unmounted_feed.
Proof.
  pose proof (guards_cover_missing_elements
                Samples.bare_page Samples.unmounted_history
                Samples.unmounted_feed Samples.encode_titles Samples.yes 0)
    as (Hg & _ & _ & _ & _ & _ & Hf).
  split.
  - apply Hg. left. reflexivity.
  - apply Hf. reflexivity.
Defined.

(** C5 as worded fails: liking in the empty feed of a component not yet
    mounted, viewing the post at index 10 of the ten posts of the history,
    and activating tab 7 of a nav with three tabs each throw a TypeError;
    nothing guards the access. *)
Lemma unguarded_access_throws :
  Discover.discoverPosts Samples.unmounted_feed = [] /\
  completion (Discover.likePost 0) Samples.unmounted_feed = Thrown TypeError /\
  length (History.filteredHistory Samples.mounted) = 10%nat /\
  completion (History.viewPost 10) Samples.mounted = Thrown TypeError /\
  length (Dashboard.tabs Samples.page) = 3%nat /\
  completion (Dashboard.setActive 7) Samples.page = Thrown TypeError.
Proof. repeat split. Qed.

End GuardFacts.

(** ** More on the history component *)

Module HistoryMore.
Import History JsStringFacts ArrayFacts HistoryFacts.

Example empty_array_gives_no_posts :
  completion (ngOnInit Samples.parse_empty_array Samples.clock)
             MoreSamples.empty_array_stored = Returned tt /\
  history (exec (ngOnInit Samples.parse_empty_array Samples.clock)
                MoreSamples.empty_array_stored) = [].
Proof. split; reflexivity. Qed.

(** *** Loading *)

Example other_stored_text :
  localStorage MoreSamples.other_stored !! "postHistory"
  = Some (String (ascii_of_nat 91)
            (String (ascii_of_nat 123)
               (String (ascii_of_nat 34) "title"
                ++ String (ascii_of_nat 34) ":"
                ++ String (ascii_of_nat 34) "Other"
                ++ String (ascii_of_nat 34) ","
                ++ String (ascii_of_nat 34) "description"
                ++ String (ascii_of_nat 34) ":"
                ++ String (ascii_of_nat 34) "second"
                ++ String (ascii_of_nat 34) ","
                ++ String (ascii_of_nat 34) "date"
                ++ String (ascii_of_nat 34) ":"
                ++ String (ascii_of_nat 34) "2024-05-01T10:00:00.000Z"
                ++ String (ascii_of_nat 34) "}]"))).
Proof. reflexivity. Qed.

Example null_stored_throws :
  completion (ngOnInit MoreSamples.parse_samples Samples.clock)
             MoreSamples.null_stored = Thrown TypeError.
Proof. reflexivity. Qed.

(** Mounting on a stored array of posts. *)
Lemma ngOnInit_on_post_array JSON_parse now (s : HistoryComponent) text vs :
  localStorage s !! "postHistory" = Some text ->
  text <> "" ->
  JSON_parse text = Some (PostArray vs) ->
  ngOnInit JSON_parse now s
  = (Returned tt,
     set_filteredHistory (seq (brk s) (length vs))
       (set_history (seq (brk s) (length vs)) (exec (allocate vs) s))).
Proof.
  intros Hs Ht Hp.
  unfold ngOnInit, loadHistory, try_catch, bind, get, parse, assign_history.
  rewrite Hs. destruct text; [congruence|]. cbn [truthy]. now rewrite Hp.
Qed.

(** X1: when local storage holds under 'postHistory' a non-empty text
    that [JSON.parse] turns into an array of post records, mounting the
    component returns normally with exactly these posts as its history,
    in order, as pairwise distinct objects, all of them in the filtered
    view; no placeholder is generated, also when the stored array is
    empty, and storage is not written. *)
Theorem ngOnInit_restores_stored_posts
    (JSON_parse : string -> option parsed) (now : string)
    (s : HistoryComponent) (text : string) (vs : list PostHistory) :
  localStorage s !! "postHistory" = Some text ->
  text <> "" ->
  JSON_parse text = Some (PostArray vs) ->
  let s' := exec (ngOnInit JSON_parse now) s in
  completion (ngOnInit JSON_parse now) s = Returned tt /\
  map (heap s') (history s') = vs /\
  length (history s') = length vs /\
  NoDup (history s') /\
  filteredHistory s' = history s' /\
  localStorage s' = localStorage s.
Proof.
  intros Hs Ht Hp s'. subst s'. unfold exec, completion.
  rewrite (ngOnInit_on_post_array JSON_parse now s text vs Hs Ht Hp).
  cbn [fst snd history filteredHistory heap localStorage
       set_filteredHistory set_history exec allocate].
  split; [reflexivity|]. split; [apply fresh_objects_read|].
  split; [apply length_seq|]. split; [apply NoDup_seq|]. split; reflexivity.
Qed.

Lemma ngOnInit_restores_stored_posts_witness :
  map (heap (exec (ngOnInit MoreSamples.parse_samples Samples.clock)
                  MoreSamples.other_stored))
      (history (exec (ngOnInit MoreSamples.parse_samples Samples.clock)
                     MoreSamples.other_stored))
  = [Samples.note "Other" "second"] /\
  length (history (exec (ngOnInit MoreSamples.parse_samples Samples.clock)
                        MoreSamples.other_stored)) = 1%nat.
Proof.
  pose proof (ngOnInit_restores_stored_posts
                MoreSamples.parse_samples Samples.clock MoreSamples.other_stored
                (MoreSamples.encode_posts [Samples.note "Other" "second"])
                [Samples.note "Other" "second"]) as H.
  destruct H as (_ & Hv & Hlen & _).
  - reflexivity.
  - discriminate.
  - reflexivity.
  - split; [exact Hv | exact Hlen].
Defined.

(** X2: mounting fails in one case only: [ngOnInit] throws a TypeError,
    at the spread of [this.history] outside the try of [loadHistory],
    exactly when local storage holds under 'postHistory' a non-empty text
    that [JSON.parse] turns into a value that cannot be iterated; the
    filtered view is then as before.  In every other case (no text, the
    empty text, a text that is not JSON, an array of post records) it
    returns normally with a history of pairwise distinct objects created
    by the call, all in the filtered view, and objects that existed before
    unchanged.  Neither storage nor the search term is ever written. *)
Theorem ngOnInit_throws_only_at_the_spread
    (JSON_parse : string -> option parsed) (now : string)
    (s : HistoryComponent) :
  let s' := exec (ngOnInit JSON_parse now) s in
  (completion (ngOnInit JSON_parse now) s = Thrown TypeError <->
   exists text, localStorage s !! "postHistory" = Some text /\
                text <> "" /\ JSON_parse text = Some NotIterable) /\
  (completion (ngOnInit JSON_parse now) s = Returned tt \/
   completion (ngOnInit JSON_parse now) s = Thrown TypeError) /\
  localStorage s' = localStorage s /\
  searchQuery s' = searchQuery s /\
  (completion (ngOnInit JSON_parse now) s = Thrown TypeError ->
   filteredHistory s' = filteredHistory s) /\
  (completion (ngOnInit JSON_parse now) s = Returned tt ->
   NoDup (history s') /\
   Forall (fun r => (brk s <= r < brk s')%nat) (history s') /\
   filteredHistory s' = history s' /\
   (forall r, (r < brk s)%nat -> heap s' r = heap s r)).
Proof.
  intros s'. subst s'. unfold exec, completion, ngOnInit, bind.
  destruct (loadHistory_cases JSON_parse now s)
    as [[vs Hl] | [Hl (text & Hs & Ht & Hp)]]; rewrite Hl;
    cbn [fst snd modify throw history filteredHistory heap localStorage
         searchQuery brk set_filteredHistory set_history exec allocate].
  - split.
    { split; [discriminate|]. intros (text & Hs & Ht & Hp).
      exfalso. revert Hl.
      unfold loadHistory, try_catch, bind, get, parse, assign_history.
      rewrite Hs. destruct text; [congruence|]. cbn [truthy]. rewrite Hp.
      discriminate. }
    split; [now left|]. split; [reflexivity|]. split; [reflexivity|].
    split; [discriminate|]. intros _.
    split; [apply NoDup_seq|].
    split; [apply Forall_forall; intros r Hr; apply elem_of_seq in Hr; lia|].
    split; [reflexivity|].
    intros r Hr. destruct (Nat.leb_spec (brk s) r); [lia | reflexivity].
  - split; [split; [intros _; now exists text | reflexivity]|].
    split; [now right|]. split; [reflexivity|]. split; [reflexivity|].
    split; [reflexivity | discriminate].
Qed.

Lemma ngOnInit_throws_only_at_the_spread_witness :
  completion (ngOnInit MoreSamples.parse_samples Samples.clock)
             MoreSamples.null_stored = Thrown TypeError /\
  filteredHistory (exec (ngOnInit MoreSamples.parse_samples Samples.clock)
                        MoreSamples.null_stored) = [].
Proof.
  pose proof (ngOnInit_throws_only_at_the_spread
                MoreSamples.parse_samples Samples.clock MoreSamples.null_stored)
    as (Hiff & _ & _ & _ & Hview & _).
  assert (Ht : completion (ngOnInit MoreSamples.parse_samples Samples.clock)
                          MoreSamples.null_stored = Thrown TypeError).
  { apply Hiff. exists "null". repeat split. discriminate. }
  split; [exact Ht | exact (Hview Ht)].
Defined.

(** *** Deleting *)

(** X3: when the user declines the confirmation, [deletePost] returns
    normally and deletes nothing: the history, the filtered view and local
    storage are as before, and the only effect is the confirmation
    dialog having been shown. *)
Theorem deletePost_declined_keeps_everything
    (JSON_stringify : list PostHistory -> string) (confirm : dialog -> bool)
    (s : HistoryComponent) (index : Z) (post : ref) :
  js_index (filteredHistory s) index = Some post ->
  confirm (DeleteDialog (title (heap s post))) = false ->
  let s' := exec (deletePost JSON_stringify confirm index) s in
  completion (deletePost JSON_stringify confirm index) s = Returned tt /\
  history s' = history s /\
  filteredHistory s' = filteredHistory s /\
  localStorage s' = localStorage s /\
  shown s' = (shown s ++ [DeleteDialog (title (heap s post))])%list.
Proof.
  intros Hi Hn s'. subst s'. unfold exec, completion.
  rewrite (deletePost_declined JSON_stringify confirm s index post Hi Hn).
  repeat split.
Qed.

Lemma deletePost_declined_keeps_everything_witness :
  history (exec (deletePost Samples.encode_titles MoreSamples.no 3)
                Samples.mounted)
  = history Samples.mounted.
Proof.
  apply (deletePost_declined_keeps_everything
           Samples.encode_titles MoreSamples.no Samples.mounted 3 3%nat);
    reflexivity.
Defined.

(** X4: a confirmed deletion survives a reload: when [JSON.parse] turns
    the text that [deletePost] stored back into the array of the posts
    that remained, a component mounted afterwards on that storage has as
    history exactly these posts, one fewer than before the deletion. *)
Theorem deletion_survives_reload
    (JSON_parse : string -> option parsed)
    (JSON_stringify : list PostHistory -> string) (now : string)
    (confirm : dialog -> bool)
    (s : HistoryComponent) (index : Z) (post : ref)
    (h : ref -> PostHistory) (b : ref) :
  consistent s ->
  js_index (filteredHistory s) index = Some post ->
  confirm (DeleteDialog (title (heap s post))) = true ->
  let s1 := exec (deletePost JSON_stringify confirm index) s in
  let remaining := map (heap s1) (history s1) in
  JSON_stringify remaining <> "" ->
  JSON_parse (JSON_stringify remaining) = Some (PostArray remaining) ->
  let s2 := exec (ngOnInit JSON_parse now) (create h b (localStorage s1)) in
  completion (ngOnInit JSON_parse now) (create h b (localStorage s1))
  = Returned tt /\
  map (heap s2) (history s2) = remaining /\
  filteredHistory s2 = history s2 /\
  S (length (history s2)) = length (history s).
Proof.
  intros Hc Hi Hy s1 remaining Hne Hrt s2.
  assert (He : s1 = deleted JSON_stringify post s)
    by (unfold s1, exec; now rewrite (deletePost_confirmed _ _ s index post Hi Hy)).
  assert (Hst : localStorage s1 !! "postHistory" = Some (JSON_stringify remaining)).
  { unfold remaining. rewrite He. unfold deleted.
    cbn [localStorage exec snd applyFilter modify set_filteredHistory setItem
         history heap set_history show].
    apply lookup_insert_eq. }
  pose proof (ngOnInit_on_post_array JSON_parse now
                (create h b (localStorage s1)) _ remaining Hst Hne Hrt) as Hm.
  unfold s2, exec, completion. rewrite Hm.
  cbn [fst snd history filteredHistory heap set_filteredHistory set_history
       exec allocate create brk].
  split; [reflexivity|]. split; [apply fresh_objects_read|].
  split; [reflexivity|].
  rewrite length_seq. unfold remaining. rewrite length_map.
  assert (Hin : post ∈ history s).
  { destruct Hc as [_ Hsub]. apply js_index_Some in Hi as [_ Hk].
    eapply elem_of_sublist; [|exact Hsub]. eapply list_elem_of_lookup_2, Hk. }
  destruct (indexOf_elem (history s) post Hin) as [i [Hio Hli]].
  rewrite He. unfold deleted.
  cbn [history exec snd applyFilter modify set_filteredHistory setItem
       set_history show].
  rewrite Hio, splice1_at, length_delete by (now rewrite Hli).
  apply lookup_lt_Some in Hli. lia.
Qed.

Example pair_of_notes_delete_first :
  localStorage (exec (deletePost MoreSamples.encode_posts Samples.yes 0)
                     MoreSamples.pair_of_notes) !! "postHistory"
  = Some (MoreSamples.encode_posts [Samples.note "Other" "second"]).
Proof. reflexivity. Qed.

Lemma deletion_survives_reload_witness :
  map (heap (exec (ngOnInit MoreSamples.parse_samples Samples.clock)
               (create (fun _ => Samples.note "" "") 0%nat
                  (localStorage
                     (exec (deletePost MoreSamples.encode_posts Samples.yes 0)
                           MoreSamples.pair_of_notes)))))
      (history (exec (ngOnInit MoreSamples.parse_samples Samples.clock)
                  (create (fun _ => Samples.note "" "") 0%nat
                     (localStorage
                        (exec (deletePost MoreSamples.encode_posts Samples.yes 0)
                              MoreSamples.pair_of_notes)))))
  = [Samples.note "Other" "second"].
Proof.
  pose proof (deletion_survives_reload
                MoreSamples.parse_samples MoreSamples.encode_posts Samples.clock
                Samples.yes MoreSamples.pair_of_notes 0 0%nat
                (fun _ => Samples.note "" "") 0%nat) as H.
  destruct H as (_ & Hv & _).
  - split; [apply NoDup_cons_2; [|apply NoDup_singleton] | reflexivity].
    intros Hin. apply list_elem_of_singleton in Hin. discriminate Hin.
  - reflexivity.
  - reflexivity.
  - discriminate.
  - reflexivity.
  - exact Hv.
Defined.

(** *** Searching *)

Lemma filter_narrower {A} (f g : A -> bool) (l : list A) :
  (forall x, f x = true -> g x = true) ->
  sublist (List.filter f l) (List.filter g l).
Proof.
  intros Hfg. induction l as [|x l IH]; cbn [List.filter]; [constructor|].
  destruct (f x) eqn:Ef.
  - rewrite (Hfg x Ef). now constructor.
  - destruct (g x); [now constructor | exact IH].
Qed.

Lemma Substring_empty (q : string) : Substring q "" -> q = "".
Proof.
  intros [p [u H]]. destruct p; [|discriminate].
  destruct q; [reflexivity | discriminate].
Qed.

(** X5: a longer term narrows the view: when the trimmed, lower-cased
    form of one search term is a substring of that of another, the view
    filtered by the second is a sub-list of the view filtered by the first,
    on the same history. *)
Theorem longer_term_narrows_the_view
    (s : HistoryComponent) (term1 term2 : string) :
  Substring (trim (toLowerCase term1)) (trim (toLowerCase term2)) ->
  sublist
    (filteredHistory (exec applyFilter (set_searchQuery term2 s)))
    (filteredHistory (exec applyFilter (set_searchQuery term1 s))).
Proof.
  intros Hsub.
  set (s1 := set_searchQuery term1 s). set (s2 := set_searchQuery term2 s).
  destruct (string_dec (trim (toLowerCase term1)) "") as [H1|H1].
  - rewrite (applyFilter_empty s1 H1). exact (applyFilter_sublist s2).
  - assert (H2 : trim (toLowerCase term2) <> "").
    { intros E. rewrite E in Hsub. now apply Substring_empty in Hsub. }
    rewrite (applyFilter_nonempty s1 H1), (applyFilter_nonempty s2 H2).
    cbn [history heap searchQuery s1 s2 set_searchQuery].
    apply filter_narrower. intros post.
    rewrite !includes_spec. intros H. eapply Substring_trans; eassumption.
Qed.

Lemma longer_term_narrows_the_view_witness :
  sublist
    (filteredHistory (exec applyFilter (set_searchQuery "Post 1" Samples.mounted)))
    (filteredHistory (exec applyFilter (set_searchQuery " post" Samples.mounted))).
Proof.
  apply (longer_term_narrows_the_view Samples.mounted " post" "Post 1").
  apply includes_spec. reflexivity.
Defined.

Example mounted_search_post_1 :
  filteredHistory (exec applyFilter (set_searchQuery "Post 1" Samples.mounted))
  = [0; 9]%nat.
Proof. reflexivity. Qed.

Lemma is_space_lower_unit (c : ascii) : is_space (lower_unit c) = is_space c.
Proof. destruct c as [[] [] [] [] [] [] [] []]; reflexivity. Qed.

Lemma lower_unit_idempotent (c : ascii) :
  lower_unit (lower_unit c) = lower_unit c.
Proof. destruct c as [[] [] [] [] [] [] [] []]; reflexivity. Qed.

Lemma toLowerCase_idempotent (t : string) :
  toLowerCase (toLowerCase t) = toLowerCase t.
Proof.
  induction t as [|c t IH]; cbn [toLowerCase]; [reflexivity|].
  now rewrite lower_unit_idempotent, IH.
Qed.

Lemma trimStart_blank (t : string) :
  Runs.blank t = true -> trimStart (toLowerCase t) = "".
Proof.
  unfold Runs.blank. induction t as [|c t IH]; [reflexivity|].
  cbn [list_ascii_of_string forallb toLowerCase trimStart].
  rewrite is_space_lower_unit. intros H. apply andb_prop in H as [-> H].
  exact (IH H).
Qed.

(** X6: a search term made of white space only behaves like the empty
    term: [applyFilter] puts the full history in the filtered view. *)
Theorem blank_term_shows_everything (s : HistoryComponent) :
  Runs.blank (searchQuery s) = true ->
  filteredHistory (exec applyFilter s) = history s.
Proof.
  intros H. apply applyFilter_empty. unfold trim.
  now rewrite (trimStart_blank _ H).
Qed.

Lemma blank_term_shows_everything_witness :
  filteredHistory (exec applyFilter (set_searchQuery "   " Samples.two_notes))
  = [0; 1]%nat.
Proof.
  apply (blank_term_shows_everything (set_searchQuery "   " Samples.two_notes)).
  reflexivity.
Defined.

Lemma toLowerCase_join (sep : string) (l : list string) :
  toLowerCase (join sep l) = join (toLowerCase sep) (map toLowerCase l).
Proof.
  induction l as [|x l IH]; [reflexivity|].
  destruct l as [|y l]; [reflexivity|].
  change (join sep (x :: y :: l)) with (x ++ sep ++ join sep (y :: l)).
  rewrite !toLowerCase_app, IH. reflexivity.
Qed.

(** X7: the search does not see case: two posts whose title,
    description, caption and tags agree once lower-cased are searched in
    the same text, and a term gives the same view as its lower-cased
    form. *)
Theorem search_ignores_case
    (s : HistoryComponent) (p p' : PostHistory) :
  (toLowerCase (title p) = toLowerCase (title p') ->
   toLowerCase (description p) = toLowerCase (description p') ->
   toLowerCase (caption_or_empty p) = toLowerCase (caption_or_empty p') ->
   map toLowerCase (tags_or_empty p) = map toLowerCase (tags_or_empty p') ->
   haystack p = haystack p') /\
  filteredHistory
    (exec applyFilter (set_searchQuery (toLowerCase (searchQuery s)) s))
  = filteredHistory (exec applyFilter s).
Proof.
  split.
  - intros Ht Hd Hc Hg. unfold haystack. rewrite !toLowerCase_join.
    rewrite !map_app. cbn [map]. now rewrite Ht, Hd, Hc, Hg.
  - unfold exec, applyFilter, modify.
    cbn [snd filteredHistory set_filteredHistory searchQuery set_searchQuery
         history heap].
    now rewrite toLowerCase_idempotent.
Qed.

Lemma search_ignores_case_witness :
  haystack (Samples.note "Hello World" "first")
  = haystack (Samples.note "HELLO world" "FIRST").
Proof.
  apply (search_ignores_case Samples.two_notes
           (Samples.note "Hello World" "first")
           (Samples.note "HELLO world" "FIRST")); reflexivity.
Defined.

(** *** What is persisted *)

Lemma history_run_app JSON_stringify es e s :
  Runs.history_run JSON_stringify (es ++ [e]) s
  = exec (perform JSON_stringify e) (Runs.history_run JSON_stringify es s).
Proof. unfold Runs.history_run. now rewrite fold_left_app. Qed.

(** X8: along every sequence of searches, views and deletions from a
    state whose history holds pairwise distinct posts and whose filtered
    view is a sub-list of it, the post objects are never modified, the
    history only loses entries, the state stays of that kind, and local
    storage either is still as it was, with the history unchanged too, or
    holds under 'postHistory' the encoding of the current history: what is
    stored never lags behind a deletion. *)
Theorem storage_follows_deletions
    (JSON_stringify : list PostHistory -> string)
    (s0 : HistoryComponent) (es : list event) :
  consistent s0 ->
  let s := Runs.history_run JSON_stringify es s0 in
  heap s = heap s0 /\
  sublist (history s) (history s0) /\
  consistent s /\
  ((history s = history s0 /\ localStorage s = localStorage s0) \/
   localStorage s
   = <["postHistory" := JSON_stringify (map (heap s0) (history s))]>
       (localStorage s0)).
Proof.
  intros Hc0 s. subst s.
  induction es as [|e es IH] using rev_ind.
  - split; [reflexivity|]. split; [reflexivity|].
    split; [exact Hc0|]. left. split; reflexivity.
  - rewrite history_run_app.
    set (s := Runs.history_run JSON_stringify es s0) in *.
    destruct IH as (Hh & Hsub & Hc & Hst).
    destruct e as [term| |index|index confirm]; cbn [perform].
    + auto.
    + split; [exact Hh|]. split; [exact Hsub|].
      split; [now apply consistent_applyFilter | exact Hst].
    + pose proof (consistent_viewPost index s Hc) as Hc'.
      unfold exec, viewPost, bind, get in *.
      destruct (js_index (filteredHistory s) index); auto.
    + pose proof (consistent_deletePost JSON_stringify confirm index s Hc) as Hc'.
      unfold exec in *.
      destruct (js_index (filteredHistory s) index) as [post|] eqn:Hi.
      * destruct (confirm (DeleteDialog (title (heap s post)))) eqn:Hy.
        -- rewrite (deletePost_confirmed _ _ s index post Hi Hy) in *.
           cbn [snd] in *. unfold deleted in *.
           cbn [history heap localStorage exec snd applyFilter modify
                set_filteredHistory setItem set_history show] in *.
           split; [exact Hh|].
           split; [etrans; [apply sublist_delete | exact Hsub]|].
           split; [exact Hc'|]. right. rewrite Hh.
           destruct Hst as [[_ ->] | ->]; [reflexivity|].
           apply insert_insert_eq.
        -- rewrite (deletePost_declined _ _ s index post Hi Hy) in *. auto.
      * rewrite (deletePost_out_of_range _ _ s index Hi) in *. auto.
Qed.

Example pair_of_notes_runs :
  localStorage
    (Runs.history_run MoreSamples.encode_posts
       [Search "post 1"; ApplyFilter; DeletePost 1 Samples.yes; ViewPost 0]
       MoreSamples.pair_of_notes) = ∅ /\
  history
    (Runs.history_run MoreSamples.encode_posts
       [DeletePost 0 Samples.yes; Search "zzz"; ApplyFilter; DeletePost 0 Samples.yes]
       MoreSamples.pair_of_notes) = [1%nat].
Proof. split; reflexivity. Qed.

Lemma storage_follows_deletions_witness :
  sublist
    (history
       (Runs.history_run MoreSamples.encode_posts
          [Search "post 1"; ApplyFilter; DeletePost 1 Samples.yes; ViewPost 0]
          Samples.mounted))
    (history Samples.mounted).
Proof.
  apply (storage_follows_deletions MoreSamples.encode_posts Samples.mounted
           [Search "post 1"; ApplyFilter; DeletePost 1 Samples.yes; ViewPost 0]).
  apply consistent_ngOnInit.
Defined.

End HistoryMore.

(** ** More on the discover component *)

Module DiscoverMore.
Import Discover ArrayFacts DiscoverFacts.

Lemma mock_read random (s : DiscoverComponent) (i : nat) :
  (i < 10)%nat ->
  discoverPosts (exec (generateMockData random) s) !! i = Some (brk s + i)%nat /\
  heap (exec (generateMockData random) s) (brk s + i)%nat = mock random i.
Proof.
  intros Hi. unfold exec, generateMockData, modify.
  cbn [snd discoverPosts heap]. split.
  - apply lookup_seq. cbn. lia.
  - destruct (Nat.leb_spec (brk s) (brk s + i)); [|lia].
    replace (brk s + i - brk s)%nat with i by lia.
    do 10 (destruct i as [|i]; [reflexivity|]). lia.
Qed.

(** X9: when every draw [Math.floor(Math.random() * n)] lies in [0, n),
    [generateMockData] fills the feed with ten pairwise distinct posts,
    the post at position [i] titled with the number [i + 1], each with a
    like counter in [0, 1000), four tags and an image. *)
Theorem generateMockData_fills_the_feed
    (random : nat -> Z -> Z) (s : DiscoverComponent) :
  (forall k n, (0 < n)%Z -> (0 <= random k n < n)%Z) ->
  let s' := exec (generateMockData random) s in
  completion (generateMockData random) s = Returned tt /\
  length (discoverPosts s') = 10%nat /\
  NoDup (discoverPosts s') /\
  forall i post, discoverPosts s' !! i = Some post ->
    title (heap s' post) = "Discover Post " ++ decimal (i + 1) /\
    (0 <= likes (heap s' post) < 1000)%Z /\
    length (tags (heap s' post)) = 4%nat /\
    is_Some (image (heap s' post)).
Proof.
  intros Hr s'. subst s'.
  split; [reflexivity|]. split; [reflexivity|]. split; [apply NoDup_seq|].
  intros i post Hi.
  assert (Hlt : (i < 10)%nat) by exact (lookup_lt_Some _ _ _ Hi).
  destruct (mock_read random s i Hlt) as [Hi' Hm].
  pose proof (eq_trans (eq_sym Hi) Hi') as E. injection E as ->. rewrite Hm.
  cbn [mock title likes tags image].
  split; [reflexivity|]. split; [apply Hr; lia|]. split; [reflexivity|].
  apply lookup_lt_is_Some. cbn [length sampleImages].
  apply Nat.mod_upper_bound. lia.
Qed.

Lemma generateMockData_fills_the_feed_witness :
  (0 <= likes (heap Samples.feed 4%nat) < 1000)%Z.
Proof.
  pose proof (generateMockData_fills_the_feed Samples.dice
                (create (fun _ => Samples.blank) 0%nat)) as H.
  destruct H as (_ & _ & _ & Hall).
  - intros k n Hn. unfold Samples.dice. apply Z.mod_pos_bound. exact Hn.
  - destruct (Hall 4%nat 4%nat eq_refl) as (_ & Hl & _). exact Hl.
Defined.

(** *** Liking *)

Lemma like_times_S k index s :
  Runs.like_times (S k) index s
  = exec (likePost index) (Runs.like_times k index s).
Proof. reflexivity. Qed.

(** X10: likes add up: for an index within the bounds of the feed,
    [likePost] called [k] times raises the like counter of the post at
    that index by [k], and leaves the feed and every other object as they
    were. *)
Theorem likes_add_up
    (s : DiscoverComponent) (index : Z) (post : ref) (k : nat) :
  js_index (discoverPosts s) index = Some post ->
  let s' := Runs.like_times k index s in
  discoverPosts s' = discoverPosts s /\
  likes (heap s' post) = (likes (heap s post) + Z.of_nat k)%Z /\
  title (heap s' post) = title (heap s post) /\
  (forall r, r <> post -> heap s' r = heap s r).
Proof.
  intros Hi s'. subst s'. induction k as [|k (Hl & Hk & Ht & Ho)].
  - change (Runs.like_times 0 index s) with s.
    split; [reflexivity|]. split; [lia|]. split; [reflexivity|]. reflexivity.
  - rewrite like_times_S. set (s1 := Runs.like_times k index s) in *.
    assert (Hi1 : js_index (discoverPosts s1) index = Some post)
      by now rewrite Hl.
    unfold exec. rewrite (likePost_in_range s1 index post Hi1).
    cbn [snd discoverPosts heap]. rewrite store_same.
    cbn [incr_likes likes title].
    split; [exact Hl|]. split; [lia|]. split; [exact Ht|].
    intros r Hr. rewrite store_other by exact Hr. now apply Ho.
Qed.

Lemma likes_add_up_witness :
  likes (heap (Runs.like_times 5 2 Samples.feed) 2%nat) = (196 + 5)%Z.
Proof.
  apply (likes_add_up Samples.feed 2 2%nat 5). reflexivity.
Defined.

Lemma likePost_frame (s : DiscoverComponent) (index : Z) :
  discoverPosts (exec (likePost index) s) = discoverPosts s /\
  brk (exec (likePost index) s) = brk s /\
  shown (exec (likePost index) s) = shown s.
Proof.
  unfold exec. destruct (js_index (discoverPosts s) index) as [post|] eqn:Hi.
  - now rewrite (likePost_in_range s index post Hi).
  - now rewrite (likePost_out_of_range s index Hi).
Qed.

Lemma likePost_heap (s : DiscoverComponent) (index : Z) (r : ref) :
  heap (exec (likePost index) s) r
  = match js_index (discoverPosts s) index with
    | Some post => if Nat.eqb r post then incr_likes (heap s r) else heap s r
    | None => heap s r
    end.
Proof.
  unfold exec. destruct (js_index (discoverPosts s) index) as [post|] eqn:Hi.
  - rewrite (likePost_in_range s index post Hi). cbn [snd heap]. unfold store.
    now destruct (Nat.eqb_spec r post) as [->|].
  - now rewrite (likePost_out_of_range s index Hi).
Qed.

(** X11: likes commute: liking at index [i] and then at index [j] leaves
    the same feed, the same objects and the same dialogs as liking at
    [j] and then at [i], for all indices, within bounds or not, and
    whether or not both positions hold the same object. *)
Theorem likes_commute (s : DiscoverComponent) (i j : Z) :
  let a := exec (likePost j) (exec (likePost i) s) in
  let b := exec (likePost i) (exec (likePost j) s) in
  discoverPosts a = discoverPosts b /\
  (forall r, heap a r = heap b r) /\
  brk a = brk b /\
  shown a = shown b.
Proof.
  intros a b. subst a b.
  destruct (likePost_frame s i) as (Fi & Bi & Si).
  destruct (likePost_frame s j) as (Fj & Bj & Sj).
  destruct (likePost_frame (exec (likePost i) s) j) as (Fij & Bij & Sij).
  destruct (likePost_frame (exec (likePost j) s) i) as (Fji & Bji & Sji).
  split; [congruence|]. split; [|split; congruence].
  intros r. rewrite !likePost_heap, Fi, Fj.
  destruct (js_index (discoverPosts s) i) as [p|];
    destruct (js_index (discoverPosts s) j) as [q|];
    try reflexivity.
  destruct (Nat.eqb r p), (Nat.eqb r q); reflexivity.
Qed.

(** Viewing reads only: for every index, [viewPost] leaves the feed and
    every post as they were, whether it returns or throws; within bounds
    it shows one dialog, with the title and the description of the post at
    that index. *)
Lemma viewPost_reads_only (s : DiscoverComponent) (index : Z) :
  let s' := exec (viewPost index) s in
  discoverPosts s' = discoverPosts s /\
  heap s' = heap s /\
  shown s'
  = match js_index (discoverPosts s) index with
    | Some post =>
        (shown s ++ [ViewDialog (title (heap s post))
                                (description (heap s post))])%list
    | None => shown s
    end.
Proof.
  intros s'. subst s'. unfold exec, viewPost, bind, get.
  destruct (js_index (discoverPosts s) index); repeat split.
Qed.

End DiscoverMore.

(** ** More on the dashboard component *)

Module DashboardMore.
Import Dashboard ArrayFacts DashboardFacts.

Example tracking_page_frame_throws :
  completion (run ScrollFrame 0 0) MoreSamples.tracking_page = Thrown TypeError /\
  activeIndex (exec (run ScrollFrame 0 0) MoreSamples.tracking_page) = 3%Z /\
  scrollPending (exec (run ScrollFrame 0 0) MoreSamples.tracking_page) = true.
Proof. repeat split. Qed.

Example full_page_tracks :
  activeIndex (exec (run ScrollFrame 1000 900) MoreSamples.full_page) = 1%Z /\
  activeIndex (exec (run ScrollFrame 2200 900) MoreSamples.full_page) = 3%Z /\
  indicator_style (exec (run ScrollFrame 2200 900) MoreSamples.full_page)
    !! "background" = Some (Text "#e39519").
Proof. repeat split. Qed.

(** *** Mounting *)

(** X12: mounting is safe whatever the template rendered: with any tabs,
    indicator and nav container found or not, [ngAfterViewInit] on the
    freshly constructed component returns normally; nobody is logged in,
    the page scroll is locked, one calculation of the section offsets is
    scheduled after 200 ms, scroll events are ignored; the indicator is
    placed on the first tab with the first colour when all three are
    there, and its styles are untouched otherwise. *)
Theorem mounting_the_dashboard_is_safe
    (sections : gmap string Z) (ov : option string)
    (st : gmap string style_value)
    (navTabs : list element) (navIndicator navBox : option element) :
  let s := exec (ngAfterViewInit navTabs navIndicator navBox)
                (create sections ov st) in
  completion (ngAfterViewInit navTabs navIndicator navBox)
             (create sections ov st) = Returned tt /\
  isLoggedIn s = false /\
  body_overflow s = Some "hidden" /\
  scheduled s = [Timeout RecalculateOffsets 200] /\
  activeIndex s = 0%Z /\
  onWindowScroll s = (Returned tt, s) /\
  match navIndicator, navTabs, navBox with
  | Some ind, tab :: _, Some nav =>
      indicator_style s !! "top" = Some (CentredOn tab nav ind) /\
      indicator_style s !! "background" = Some (Text "#e18e1c")
  | _, _, _ => indicator_style s = st
  end.
Proof.
  intros s. subst s.
  destruct navIndicator as [ind|], navTabs as [|tab tabs0], navBox as [nav|];
    repeat (split; [reflexivity|]); try reflexivity.
  set (s := exec _ _).
  assert (E : indicator_style s
              = <["background" := Text "#e18e1c"]>
                  (<["top" := CentredOn tab nav ind]>
                     (<["transition" :=
                          Text "top 0.35s cubic-bezier(0.23, 1, 0.32, 1), background 0.3s ease"]>
                        st))) by reflexivity.
  rewrite E. split.
  - rewrite lookup_insert_ne by discriminate. apply lookup_insert_eq.
  - apply lookup_insert_eq.
Qed.

(** *** The loop of the scroll tracking *)

(** X13: the loop of [handleScroll] finds the last section reached: over
    the first [n] offsets it yields the greatest position whose section
    starts at or above the probe line, every later one starting below it,
    and it yields nothing exactly when no section among them is
    reached. *)
Theorem lastSectionAbove_is_the_last_reached
    (offsets : list SectionOffset) (scrollY innerHeight : Z) (n : nat) :
  (n <= length offsets)%nat ->
  match lastSectionAbove offsets scrollY innerHeight n with
  | Some i =>
      (i < n)%nat /\
      (exists o, offsets !! i = Some o /\ Runs.reached scrollY innerHeight o) /\
      (forall j o, (i < j < n)%nat -> offsets !! j = Some o ->
                   ~ Runs.reached scrollY innerHeight o)
  | None =>
      forall j o, (j < n)%nat -> offsets !! j = Some o ->
                  ~ Runs.reached scrollY innerHeight o
  end.
Proof.
  unfold Runs.reached. induction n as [|n IH]; intros Hn; cbn [lastSectionAbove].
  - intros j o Hj. lia.
  - destruct (lookup_lt_is_Some_2 offsets n ltac:(lia)) as [o Ho]. rewrite Ho.
    destruct (Z.leb_spec (3 * top o) (3 * scrollY + innerHeight)) as [Hr|Hr].
    + split; [lia|]. split; [now exists o|]. intros j o' Hj. lia.
    + specialize (IH ltac:(lia)).
      destruct (lastSectionAbove offsets scrollY innerHeight n) as [i|].
      * destruct IH as (Hi & Hex & Hlater). split; [lia|]. split; [exact Hex|].
        intros j o' Hj Hj'. destruct (Nat.eq_dec j n) as [->|Hne].
        -- rewrite Ho in Hj'. injection Hj' as <-. lia.
        -- apply (Hlater j o'); [lia | exact Hj'].
      * intros j o' Hj Hj'. destruct (Nat.eq_dec j n) as [->|Hne].
        -- rewrite Ho in Hj'. injection Hj' as <-. lia.
        -- apply (IH j o'); [lia | exact Hj'].
Qed.

Lemma lastSectionAbove_is_the_last_reached_witness :
  lastSectionAbove (sectionOffsets MoreSamples.full_page) 1000 900 4 = Some 1%nat /\
  (1 < 4)%nat.
Proof.
  split; [reflexivity|].
  pose proof (lastSectionAbove_is_the_last_reached
                (sectionOffsets MoreSamples.full_page) 1000 900 4) as H.
  change (lastSectionAbove (sectionOffsets MoreSamples.full_page) 1000 900 4)
    with (Some 1%nat) in H.
  apply H. vm_compute. lia.
Defined.

(** *** Scroll tracking *)

Lemma lastSectionAbove_lt offsets scrollY innerHeight n i :
  lastSectionAbove offsets scrollY innerHeight n = Some i -> (i < n)%nat.
Proof.
  induction n as [|n IH]; cbn [lastSectionAbove]; [discriminate|].
  destruct (offsets !! n) as [o|].
  - destruct (3 * top o <=? 3 * scrollY + innerHeight)%Z.
    + intros [= <-]. lia.
    + intros H. specialize (IH H). lia.
  - intros H. specialize (IH H). lia.
Qed.

(** Whatever a view does not read from the indicator's styles,
    [updateIndicatorPosition] leaves alone. *)
Lemma updateIndicatorPosition_keeps {T} (view : DashboardComponent -> T) :
  (forall k v s, view (set_indicator_style k v s) = view s) ->
  preserves view updateIndicatorPosition.
Proof.
  intros Hv. unfold updateIndicatorPosition.
  apply preserves_bind; [apply preserves_get|].
  intros s. repeat case_match;
    repeat first [ apply preserves_ret | apply preserves_throw
                 | apply preserves_modify; intros; apply Hv
                 | apply preserves_bind; [|intros] ].
Qed.

Lemma updateIndicatorPosition_returns (s : DashboardComponent) :
  (0 <= activeIndex s < Z.of_nat (length (tabs s)))%Z ->
  completion updateIndicatorPosition s = Returned tt.
Proof.
  intros H. unfold completion, updateIndicatorPosition, bind, get.
  destruct (indicator s); [|reflexivity].
  destruct (tabs s) as [|t ts] eqn:Et; [reflexivity|].
  destruct (navContainer s); [|reflexivity].
  destruct (js_index (t :: ts) (activeIndex s)) eqn:E; [reflexivity|].
  apply js_index_None in E. lia.
Qed.

Lemma handleScroll_keeps {T} (view : DashboardComponent -> T)
    (scrollY innerHeight : Z) :
  (forall k v s, view (set_indicator_style k v s) = view s) ->
  (forall i s, view (set_activeIndex i s) = view s) ->
  preserves view (handleScroll scrollY innerHeight).
Proof.
  intros Hv Ha. unfold handleScroll.
  apply preserves_bind; [apply preserves_get|].
  intros s. repeat case_match;
    repeat first [ apply preserves_ret
                 | apply (updateIndicatorPosition_keeps view Hv)
                 | apply preserves_modify; intros; apply Ha
                 | apply preserves_bind; [|intros] ].
Qed.

(** The fields scroll tracking works with. *)
Lemma handleScroll_state (s : DashboardComponent) (scrollY innerHeight : Z) :
  let s' := exec (handleScroll scrollY innerHeight) s in
  activeIndex s'
  = match lastSectionAbove (sectionOffsets s) scrollY innerHeight
            (length (sectionOffsets s)) with
    | Some i => Z.of_nat i
    | None => activeIndex s
    end /\
  sectionOffsets s' = sectionOffsets s /\
  scrollPending s' = scrollPending s /\
  isClickScrolling s' = isClickScrolling s /\
  tabs s' = tabs s.
Proof.
  intros s'. subst s'. unfold exec, handleScroll, bind, get.
  destruct (lastSectionAbove _ _ _ _) as [i|]; [|repeat split].
  destruct (Z.eqb_spec (activeIndex s) (Z.of_nat i)) as [E|E]; cbn [negb].
  - repeat split. exact E.
  - unfold modify.
    pose proof (updateIndicatorPosition_keeps
                  (fun s => (activeIndex s, sectionOffsets s, scrollPending s,
                             isClickScrolling s, tabs s))
                  (fun _ _ _ => eq_refl) (set_activeIndex (Z.of_nat i) s)) as H.
    unfold exec in H.
    destruct (updateIndicatorPosition _) as [[[]|e] s1]; cbn [snd] in *;
      injection H as -> -> -> -> ->; repeat split.
Qed.

(** X14: scroll tracking is safe when every section has its tab: if the
    cached tabs are at least as many as the section offsets, [handleScroll]
    returns normally for every scroll position; afterwards the active
    index is the position of the last section reached by the probe line,
    or is unchanged when none is reached; offsets, modal flags, login flag
    and scroll lock are untouched. *)
Theorem scroll_tracking_follows_the_last_section
    (s : DashboardComponent) (scrollY innerHeight : Z) :
  (length (sectionOffsets s) <= length (tabs s))%nat ->
  let s' := exec (handleScroll scrollY innerHeight) s in
  completion (handleScroll scrollY innerHeight) s = Returned tt /\
  activeIndex s'
  = match lastSectionAbove (sectionOffsets s) scrollY innerHeight
            (length (sectionOffsets s)) with
    | Some i => Z.of_nat i
    | None => activeIndex s
    end /\
  sectionOffsets s' = sectionOffsets s /\
  modal_view s' = modal_view s /\
  lock_view s' = lock_view s.
Proof.
  intros Hlen s'. subst s'.
  destruct (handleScroll_state s scrollY innerHeight) as (Ha & Ho & _).
  split; [|split; [exact Ha|split; [exact Ho|split]]].
  - unfold completion, handleScroll, bind, get.
    destruct (lastSectionAbove _ _ _ _) as [i|] eqn:E; [|reflexivity].
    apply lastSectionAbove_lt in E.
    destruct (negb _); [|reflexivity]. unfold modify.
    pose proof (updateIndicatorPosition_returns
                  (set_activeIndex (Z.of_nat i) s)) as H.
    unfold completion in H. cbn [activeIndex tabs set_activeIndex] in H.
    destruct (updateIndicatorPosition _) as [[[]|e] s1]; cbn [fst] in *;
      [reflexivity|]. discriminate H. lia.
  - now apply (handleScroll_keeps modal_view).
  - apply handleScroll_lock.
Qed.

Lemma scroll_tracking_follows_the_last_section_witness :
  activeIndex (exec (handleScroll 2200 900) MoreSamples.full_page) = 3%Z.
Proof.
  apply (scroll_tracking_follows_the_last_section MoreSamples.full_page 2200 900).
  vm_compute. lia.
Defined.

Ltac keeps :=
  repeat first
    [ apply preserves_ret | apply preserves_throw | apply preserves_get
    | apply updateIndicatorPosition_keeps; intros; reflexivity
    | apply preserves_modify; intros; reflexivity
    | apply preserves_bind; [|intros]
    | case_match ].

Lemma onWindowScroll_state (s : DashboardComponent) :
  onWindowScroll s
  = (Returned tt,
     if isClickScrolling s || negb (isLoggedIn s) || scrollPending s
     then s
     else schedule (AnimationFrame ScrollFrame) (set_scrollPending true s)).
Proof.
  unfold onWindowScroll, bind, get.
  destruct (isClickScrolling s), (isLoggedIn s), (scrollPending s); reflexivity.
Qed.

(** X15: scroll events are throttled to one pending frame: [onWindowScroll]
    always returns; it does nothing while nobody is logged in, while a
    click scroll is under way, or while a frame is pending; otherwise it
    marks a frame pending and requests exactly one animation frame, so
    a second scroll event before the frame runs changes nothing. *)
Theorem scroll_events_are_throttled (s : DashboardComponent) :
  let s' := exec onWindowScroll s in
  completion onWindowScroll s = Returned tt /\
  (isLoggedIn s = false \/ isClickScrolling s = true \/ scrollPending s = true ->
   s' = s) /\
  (isLoggedIn s = true -> isClickScrolling s = false -> scrollPending s = false ->
   scrollPending s' = true /\
   scheduled s' = (scheduled s ++ [AnimationFrame ScrollFrame])%list /\
   activeIndex s' = activeIndex s) /\
  exec onWindowScroll s' = s'.
Proof.
  intros s'. subst s'. unfold exec, completion. rewrite !onWindowScroll_state.
  cbn [fst snd]. split; [reflexivity|]. split; [|split].
  - intros H.
    destruct (isClickScrolling s), (isLoggedIn s), (scrollPending s);
      try reflexivity; destruct H as [H | [H | H]]; discriminate H.
  - intros -> -> ->. repeat split.
  - destruct (isClickScrolling s) eqn:E1, (isLoggedIn s) eqn:E2,
      (scrollPending s) eqn:E3; cbn; rewrite ?E1, ?E2, ?E3; reflexivity.
Qed.

Lemma scroll_events_are_throttled_witness :
  exec onWindowScroll Samples.page = Samples.page.
Proof.
  pose proof (scroll_events_are_throttled Samples.page) as (_ & H & _).
  apply H. left. reflexivity.
Defined.

Lemma pending_stays_pending (e : event) (s : DashboardComponent) :
  Runs.scroll_frame e = false ->
  scrollPending s = true ->
  scrollPending (exec (perform e) s) = true.
Proof.
  intros He Hp.
  assert (Hk : forall m : Js DashboardComponent unit,
             preserves scrollPending m -> scrollPending (exec m s) = true)
    by (intros m Hm; now rewrite Hm).
  destruct e; cbn [perform].
  - apply Hk. unfold navigateToSection, toggleProfile, setActive. keeps.
  - apply Hk. unfold setActive. keeps.
  - apply Hk. unfold toggleProfile. keeps.
  - apply Hk. unfold closeProfile. keeps.
  - apply Hk. unfold toggleLogin. keeps.
  - apply Hk. unfold closeLogin, updateScrollLock. keeps.
  - apply Hk. unfold toggleSignup. keeps.
  - apply Hk. unfold closeSignup, updateScrollLock. keeps.
  - apply Hk. unfold handleLogout, closeProfile, updateScrollLock. keeps.
  - unfold exec. rewrite onWindowScroll_state. cbn [snd]. rewrite Hp.
    now rewrite !orb_true_r.
  - apply Hk. unfold onResize, calculateSectionOffsets. keeps.
  - apply Hk. destruct cb; try discriminate He; cbn [run];
      unfold calculateSectionOffsets; keeps.
  - apply Hk. keeps.
Qed.

(** X16: a scroll frame that throws stops scroll tracking for good: the
    callback clears [scrollPending] only after [handleScroll] has returned,
    so when [handleScroll] throws while a frame was pending, the flag stays
    set; from then on every scroll event is ignored, and no operation
    other than a scroll frame clears the flag. *)
Theorem failed_frame_stops_scroll_tracking
    (s : DashboardComponent) (scrollY innerHeight : Z) (err : JSError) :
  scrollPending s = true ->
  completion (run ScrollFrame scrollY innerHeight) s = Thrown err ->
  let s' := exec (run ScrollFrame scrollY innerHeight) s in
  scrollPending s' = true /\
  onWindowScroll s' = (Returned tt, s') /\
  (forall e, Runs.scroll_frame e = false ->
             scrollPending (exec (perform e) s') = true).
Proof.
  intros Hp Hthrow s'.
  assert (Hs : scrollPending s' = true).
  { subst s'. destruct (handleScroll_state s scrollY innerHeight)
      as (_ & _ & Hsp & _).
    unfold exec, completion, run, bind in *.
    destruct (handleScroll scrollY innerHeight s) as [[[]|e] s1];
      cbn [fst snd modify] in *; [discriminate|]. congruence. }
  split; [exact Hs|]. split.
  - rewrite onWindowScroll_state, Hs. now rewrite !orb_true_r.
  - intros e He. now apply pending_stays_pending.
Qed.

Lemma failed_frame_stops_scroll_tracking_witness :
  onWindowScroll (exec (run ScrollFrame 0 0) MoreSamples.tracking_page)
  = (Returned tt, exec (run ScrollFrame 0 0) MoreSamples.tracking_page).
Proof.
  apply (failed_frame_stops_scroll_tracking
           MoreSamples.tracking_page 0 0 TypeError); reflexivity.
Defined.

(** *** Navigation *)





(** X18: the Profile nav item and a missing nav item: a click on the
    Profile item (index 4) does what [toggleProfile] does and nothing more,
    whatever section id comes with it: the active index, the scroll
    position and the schedule stay as they are; an index outside the six
    nav items throws a TypeError before anything is changed. *)
Theorem navigateToSection_profile_and_beyond
    (s : DashboardComponent) (sectionId : string) (index : Z) :
  navigateToSection sectionId 4 s = toggleProfile s /\
  activeIndex (exec (navigateToSection sectionId 4) s) = activeIndex s /\
  showProfile (exec (navigateToSection sectionId 4) s) = negb (showProfile s) /\
  ((index < 0 \/ 6 <= index)%Z ->
   navigateToSection sectionId index s = (Thrown TypeError, s)).
Proof.
  split; [reflexivity|]. split; [reflexivity|]. split; [reflexivity|].
  intros H. unfold navigateToSection.
  destruct (js_index navItems index) eqn:E; [|reflexivity].
  apply js_index_Some in E as [E0 E]. apply lookup_lt_Some in E.
  cbn [length navItems] in E. lia.
Qed.

Lemma navigateToSection_profile_and_beyond_witness :
  navigateToSection "hero" 6 Samples.page = (Thrown TypeError, Samples.page).
Proof.
  apply (navigateToSection_profile_and_beyond Samples.page "hero" 6). lia.
Defined.

(** X19: nothing but the modal operations moves a modal: every event
    other than the three toggles, the three closes, the logout and a click
    on the Profile nav item (tab activation, scrolling, resizing, scheduled
    callbacks, layout) leaves the three modal flags as they are, whether
    it returns or throws. *)
Theorem modals_move_only_by_modal_operations
    (e : event) (s : DashboardComponent) :
  Runs.modal_operation e = false ->
  modal_view (exec (perform e) s) = modal_view s.
Proof.
  intros He.
  assert (Hk : forall m : Js DashboardComponent unit,
             preserves modal_view m -> modal_view (exec m s) = modal_view s)
    by (intros m Hm; apply Hm).
  destruct e; try discriminate He; cbn [perform]; apply Hk.
  - unfold navigateToSection. cbn [Runs.modal_operation] in He.
    destruct (js_index navItems index) as [item|]; [|keeps].
    rewrite He. unfold setActive. keeps.
  - unfold setActive. keeps.
  - unfold onWindowScroll. keeps.
  - unfold onResize, calculateSectionOffsets. keeps.
  - destruct cb; cbn [run]; unfold calculateSectionOffsets, handleScroll; keeps.
  - keeps.
Qed.

Lemma modals_move_only_by_modal_operations_witness :
  modal_view (exec (perform (Run ScrollFrame 0 0)) MoreSamples.tracking_page)
  = modal_view MoreSamples.tracking_page.
Proof.
  apply (modals_move_only_by_modal_operations
           (Run ScrollFrame 0 0) MoreSamples.tracking_page).
  reflexivity.
Defined.

(** *** Section offsets *)

Lemma calculateSectionOffsets_result (s : DashboardComponent) :
  sectionOffsets (exec calculateSectionOffsets s)
  = map (fun target =>
           {| id := target;
              top := match document_sections s !! target with
                     | Some offsetTop => offsetTop
                     | None => 0%Z
                     end |})
        ["hero"; "create"; "history"; "discover"].
Proof. reflexivity. Qed.

Lemma offsets_ids_step (e : event) (s : DashboardComponent) :
  sectionOffsets s = [] \/
  map id (sectionOffsets s) = ["hero"; "create"; "history"; "discover"] ->
  sectionOffsets (exec (perform e) s) = [] \/
  map id (sectionOffsets (exec (perform e) s))
  = ["hero"; "create"; "history"; "discover"].
Proof.
  intros H.
  assert (Hk : forall m : Js DashboardComponent unit,
             preserves sectionOffsets m ->
             sectionOffsets (exec m s) = [] \/
             map id (sectionOffsets (exec m s))
             = ["hero"; "create"; "history"; "discover"])
    by (intros m Hm; now rewrite Hm).
  destruct e; cbn [perform].
  - apply Hk. unfold navigateToSection, toggleProfile, setActive. keeps.
  - apply Hk. unfold setActive. keeps.
  - apply Hk. unfold toggleProfile. keeps.
  - apply Hk. unfold closeProfile. keeps.
  - apply Hk. unfold toggleLogin. keeps.
  - apply Hk. unfold closeLogin, updateScrollLock. keeps.
  - apply Hk. unfold toggleSignup. keeps.
  - apply Hk. unfold closeSignup, updateScrollLock. keeps.
  - apply Hk. unfold handleLogout, closeProfile, updateScrollLock. keeps.
  - apply Hk. unfold onWindowScroll. keeps.
  - right. reflexivity.
  - destruct cb; cbn [run].
    + right. reflexivity.
    + right.
      pose proof (updateIndicatorPosition_keeps sectionOffsets
                    (fun _ _ _ => eq_refl) (exec calculateSectionOffsets s)) as Hu.
      unfold exec, bind in *. cbn [calculateSectionOffsets modify snd] in *.
      destruct (updateIndicatorPosition _) as [[[]|err] s1]; cbn [snd] in *;
        now rewrite Hu.
    + apply Hk. keeps.
    + apply Hk. unfold handleScroll. keeps.
  - apply Hk. keeps.
Qed.

Lemma reachable_offsets_ids (s : DashboardComponent) :
  reachable s ->
  sectionOffsets s = [] \/
  map id (sectionOffsets s) = ["hero"; "create"; "history"; "discover"].
Proof.
  induction 1 as [sections ov st navTabs navIndicator navBox | s e _ IH].
  - left. destruct navIndicator, navTabs, navBox; reflexivity.
  - now apply offsets_ids_step.
Qed.

(** X20: scrolling never highlights Profile or Settings: in every state
    the mounted dashboard reaches, the section offsets are either not yet
    calculated or are those of hero, create, history and discover, in
    that order; hence a scroll frame leaves the active index as it is or
    sets it to one of 0, 1, 2, 3. *)
Theorem scrolling_activates_sections_only
    (s : DashboardComponent) (scrollY innerHeight : Z) :
  reachable s ->
  (sectionOffsets s = [] \/
   map id (sectionOffsets s) = ["hero"; "create"; "history"; "discover"]) /\
  (activeIndex (exec (handleScroll scrollY innerHeight) s) = activeIndex s \/
   (0 <= activeIndex (exec (handleScroll scrollY innerHeight) s) < 4)%Z).
Proof.
  intros Hr. pose proof (reachable_offsets_ids s Hr) as Hids.
  split; [exact Hids|].
  destruct (handleScroll_state s scrollY innerHeight) as (Ha & _).
  rewrite Ha.
  destruct (lastSectionAbove _ _ _ _) as [i|] eqn:E; [|now left].
  right. apply lastSectionAbove_lt in E.
  assert (length (sectionOffsets s) <= 4)%nat.
  { destruct Hids as [-> | Hm]; [cbn; lia|].
    apply (f_equal length) in Hm. rewrite length_map in Hm. cbn in Hm. lia. }
  lia.
Qed.

Lemma scrolling_activates_sections_only_witness :
  activeIndex (exec (handleScroll 5000 900) MoreSamples.full_page)
  = activeIndex MoreSamples.full_page \/
  (0 <= activeIndex (exec (handleScroll 5000 900) MoreSamples.full_page) < 4)%Z.
Proof.
  apply (scrolling_activates_sections_only MoreSamples.full_page 5000 900).
  unfold MoreSamples.full_page, Runs.dashboard_run. cbn [fold_left].
  apply (reach_event _ (Run RecalculateOffsets 0 0)), (reach_event _ CloseLogin),
    reach_mounted.
Defined.

(** X21: a section missing from the document counts as starting at the
    top of the page: [calculateSectionOffsets] gives it the offset 0.  So
    when the discover section is missing at that moment, any scroll frame
    whose probe line is not above the top of the page makes discover
    (index 3) the active item, wherever the other sections are. *)
Theorem missing_section_counts_as_top
    (s : DashboardComponent) (scrollY innerHeight : Z) :
  document_sections s !! "discover" = None ->
  (0 <= 3 * scrollY + innerHeight)%Z ->
  let s1 := exec calculateSectionOffsets s in
  sectionOffsets s1 !! 3%nat = Some {| id := "discover"; top := 0 |} /\
  lastSectionAbove (sectionOffsets s1) scrollY innerHeight
                   (length (sectionOffsets s1)) = Some 3%nat /\
  activeIndex (exec (handleScroll scrollY innerHeight) s1) = 3%Z.
Proof.
  intros Hmiss Hprobe s1.
  assert (Hlast : lastSectionAbove (sectionOffsets s1) scrollY innerHeight
                    (length (sectionOffsets s1)) = Some 3%nat).
  { subst s1. rewrite calculateSectionOffsets_result.
    cbn [map length lastSectionAbove lookup list_lookup]. rewrite Hmiss.
    cbn [top]. destruct (Z.leb_spec (3 * 0) (3 * scrollY + innerHeight));
      [reflexivity | lia]. }
  split; [|split; [exact Hlast|]].
  - subst s1. rewrite calculateSectionOffsets_result.
    cbn [map lookup list_lookup]. now rewrite Hmiss.
  - destruct (handleScroll_state s1 scrollY innerHeight) as (Ha & _).
    rewrite Ha, Hlast. reflexivity.
Qed.

Lemma missing_section_counts_as_top_witness :
  activeIndex (exec (handleScroll 0 0) (exec calculateSectionOffsets Samples.page))
  = 3%Z.
Proof.
  apply (missing_section_counts_as_top Samples.page 0 0).
  - reflexivity.
  - lia.
Defined.

End DashboardMore.

(** ** More on the card carousel *)

Module CreateMore.
Import Create CreateFacts.

Example initial_three_forward :
  currentCardIndex (Runs.next_times 3 initial) = 0%Z /\
  currentCardIndex (Runs.carousel_run [true; true; false; true; true] initial)
  = 0%Z.
Proof. split; reflexivity. Qed.

Lemma nextCard_mod (c : CreateComponent) :
  (0 <= currentCardIndex c < Z.of_nat (length (previewCards c)))%Z ->
  currentCardIndex (nextCard c)
  = ((currentCardIndex c + 1) mod Z.of_nat (length (previewCards c)))%Z.
Proof.
  intros H. unfold nextCard. cbn [currentCardIndex set_currentCardIndex].
  apply Z.rem_mod_nonneg; lia.
Qed.

Lemma prevCard_mod (c : CreateComponent) :
  (0 <= currentCardIndex c < Z.of_nat (length (previewCards c)))%Z ->
  currentCardIndex (prevCard c)
  = ((currentCardIndex c - 1) mod Z.of_nat (length (previewCards c)))%Z.
Proof.
  intros H. unfold prevCard. cbn [currentCardIndex set_currentCardIndex].
  rewrite Z.rem_mod_nonneg by lia.
  replace (currentCardIndex c - 1 + Z.of_nat (length (previewCards c)))%Z
    with (currentCardIndex c - 1 + 1 * Z.of_nat (length (previewCards c)))%Z
    by lia.
  apply Z.mod_add. lia.
Qed.

Lemma net_steps_app (clicks : list bool) (forward : bool) :
  Runs.net_steps (clicks ++ [forward])
  = (Runs.net_steps clicks + if forward then 1 else -1)%Z.
Proof.
  unfold Runs.net_steps. rewrite fold_left_app. cbn [fold_left].
  destruct forward; lia.
Qed.

(** X22: the carousel counts modulo the number of cards: starting from an
    index in [0, previewCards.length), after any sequence of [nextCard]
    and [prevCard] calls the index is the starting index plus the net
    number of steps forward, modulo the number of cards; so it stays
    within the cards, which are never changed, and as many [nextCard]
    calls as there are cards bring it back to where it started. *)
Theorem carousel_counts_modulo_the_cards
    (c : CreateComponent) (clicks : list bool) :
  (0 <= currentCardIndex c < Z.of_nat (length (previewCards c)))%Z ->
  currentCardIndex (Runs.carousel_run clicks c)
  = ((currentCardIndex c + Runs.net_steps clicks)
     mod Z.of_nat (length (previewCards c)))%Z /\
  (0 <= currentCardIndex (Runs.carousel_run clicks c)
   < Z.of_nat (length (previewCards c)))%Z /\
  previewCards (Runs.carousel_run clicks c) = previewCards c /\
  currentCardIndex (Runs.next_times (length (previewCards c)) c)
  = currentCardIndex c.
Proof.
  intros H. set (n := Z.of_nat (length (previewCards c))) in *.
  assert (Hrun : forall clicks,
             currentCardIndex (Runs.carousel_run clicks c)
             = ((currentCardIndex c + Runs.net_steps clicks) mod n)%Z /\
             previewCards (Runs.carousel_run clicks c) = previewCards c).
  { induction clicks0 as [|forward clicks0 [IHi IHc]] using rev_ind.
    - cbn. rewrite Z.add_0_r, Z.mod_small by lia. split; reflexivity.
    - unfold Runs.carousel_run in *. rewrite fold_left_app. cbn [fold_left].
      set (c1 := fold_left _ clicks0 c) in *.
      assert (Hr : (0 <= currentCardIndex c1
                    < Z.of_nat (length (previewCards c1)))%Z).
      { rewrite IHi, IHc. fold n. apply Z.mod_pos_bound. lia. }
      rewrite net_steps_app. destruct forward.
      + rewrite (nextCard_mod c1 Hr), IHc, IHi. fold n.
        rewrite Z.add_mod_idemp_l by lia. split; [f_equal; lia | exact IHc].
      + rewrite (prevCard_mod c1 Hr), IHc, IHi. fold n.
        rewrite <- Zminus_mod_idemp_l. rewrite Z.mod_mod by lia.
        rewrite Zminus_mod_idemp_l. split; [f_equal; lia | exact IHc]. }
  destruct (Hrun clicks) as [Hi Hc].
  split; [exact Hi|]. split; [rewrite Hi; apply Z.mod_pos_bound; lia|].
  split; [exact Hc|].
  assert (Hn : forall k, Runs.next_times k c = Runs.carousel_run (repeat true k) c).
  { induction k as [|k IHk]; [reflexivity|].
    change (Runs.next_times (S k) c) with (nextCard (Runs.next_times k c)).
    rewrite IHk. replace (repeat true (S k)) with (repeat true k ++ [true])%list
      by (symmetry; apply repeat_cons).
    unfold Runs.carousel_run. now rewrite fold_left_app. }
  assert (Hs : forall k, Runs.net_steps (repeat true k) = Z.of_nat k).
  { induction k as [|k IHk]; [reflexivity|].
    replace (repeat true (S k)) with (repeat true k ++ [true])%list
      by (symmetry; apply repeat_cons).
    rewrite net_steps_app, IHk. lia. }
  rewrite Hn. destruct (Hrun (repeat true (length (previewCards c)))) as [-> _].
  rewrite Hs. fold n.
  replace (currentCardIndex c + n)%Z with (currentCardIndex c + 1 * n)%Z by lia.
  rewrite Z.mod_add by lia. apply Z.mod_small. lia.
Qed.

Lemma carousel_counts_modulo_the_cards_witness :
  currentCardIndex (Runs.carousel_run [true; true; false; true; true] initial)
  = ((0 + 3) mod 3)%Z.
Proof.
  apply (carousel_counts_modulo_the_cards initial [true; true; false; true; true]).
  vm_compute. split; [discriminate | reflexivity].
Defined.

End CreateMore.
